(** * Verification of the daemon core of sts-agent ([daemon.py])

    A shallow embedding of [AgentSupervisor], [ProcessRunner] and [Daemon]
    as they are written in [daemon.py] (Python 2), and the properties of the
    specification that concern them.

    Layout:
    - [Py]     : the Python 2 builtins the module relies on
                 ([str.strip], [int], [str], [str.find], ordering with [None]);
    - [Os]     : the operating-system interface (file system, signals, forks)
                 and the effect monad in which the methods are written;
    - [AgentSupervisor], [ProcessRunner], [Daemon] : the three classes;
    - the vocabulary of the statements and a sample machine;
    - facts about the builtins, then the properties: the PID file, [stop],
      [status], [start] and [restart], the supervisor, [execute]. *)

From Stdlib Require Import ZArith String Ascii List Bool Lia.
From Stdlib Require Import DecimalString DecimalZ.
From stdpp Require Import gmap strings.

Import ListNotations.
Local Open Scope string_scope.
Local Open Scope Z_scope.

(* ===================================================================== *)
(** * Python 2 builtins *)
(* ===================================================================== *)

Module Py.

(** [string.whitespace] of Python 2: space, tab, newline, carriage return,
    vertical tab and form feed. *)
Definition is_space (c : ascii) : bool :=
  match nat_of_ascii c with
  | 32%nat | 9%nat | 10%nat | 13%nat | 11%nat | 12%nat => true
  | _ => false
  end.

Fixpoint lstrip (s : string) : string :=
  match s with
  | EmptyString => EmptyString
  | String c r => if is_space c then lstrip r else s
  end.

Fixpoint rstrip (s : string) : string :=
  match s with
  | EmptyString => EmptyString
  | String c r =>
      match rstrip r with
      | EmptyString => if is_space c then EmptyString else String c EmptyString
      | r' => String c r'
      end
  end.

(** [s.strip()] *)
Definition strip (s : string) : string := rstrip (lstrip s).

(** [str(n)] for an integer: decimal digits, a leading minus sign when
    negative. *)
Definition str_of_int (n : Z) : string := NilZero.string_of_int (Z.to_int n).

(** [int(s)] in base ten.  [None] stands for [ValueError].  The surrounding
    white space is skipped, then an optional sign, then (the C [strtol]
    convention of CPython 2) white space again, then a non-empty run of
    decimal digits that must reach the end of the text. *)
Definition int_of_str (s : string) : option Z :=
  match strip s with
  | String "-" r => Z.opp <$> (Z.of_uint <$> NilZero.uint_of_string (lstrip r))
  | String "+" r => Z.of_uint <$> NilZero.uint_of_string (lstrip r)
  | t => Z.of_uint <$> NilZero.uint_of_string t
  end.

(** [s.find(sub)]: the lowest index where [sub] occurs, or [-1]. *)
Definition find (s sub : string) : Z :=
  match String.index 0 sub s with
  | Some i => Z.of_nat i
  | None => -1
  end.

(** Python 2 orders [None] below every number: [None > n] is [False] and
    [None < n] is [True]. *)
Definition gt (a : option Z) (n : Z) : bool :=
  match a with
  | None => false
  | Some x => n <? x
  end.

Definition lt (a : option Z) (n : Z) : bool :=
  match a with
  | None => true
  | Some x => x <? n
  end.

(** Truth value of [None] or an integer: [None] and [0] are false. *)
Definition truthy (a : option Z) : bool :=
  match a with
  | None => false
  | Some x => negb (x =? 0)
  end.

End Py.


(* ===================================================================== *)
(** * The operating system as the module sees it *)
(* ===================================================================== *)

Module Os.

(** An [OSError] carries [errno] and [strerror] (both are read at line 73). *)
Record OSError := mkOSError { errno : Z; strerror : string }.

Definition EPERM : Z := 1.
Definition ENOENT : Z := 2.
Definition ESRCH : Z := 3.
Definition SIGTERM : Z := 15.

(** The error [kill(2)] reports for a process that is gone. *)
Definition no_such_process : OSError := mkOSError ESRCH "No such process".
Definition not_permitted : OSError := mkOSError EPERM "Operation not permitted".
Definition no_such_file : OSError := mkOSError ENOENT "No such file or directory".

(** [str(err)] of an [OSError(errno, strerror)]. *)
Definition str_of_OSError (e : OSError) : string :=
  "[Errno " +:+ Py.str_of_int (errno e) +:+ "] " +:+ strerror e.

Inductive exn :=
| EOSError (e : OSError)
| EIOError
| EValueError
| ENotImplementedError.

Inductive level := DEBUG | INFO | WARN | ERROR | EXCEPTION.

(** What a process does that the outside can observe, in the order it
    happens. *)
Inductive event :=
| Log (lvl : level) (msg : string)
| Stdout (data : string)
| Stderr (data : string)
| Kill (pid sig : Z)                       (* [os.kill(pid, sig)] was called *)
| Unlink (path : string)                   (* [os.remove] removed the file *)
| WriteFile (path data : string)
| Chmod (path : string) (mode : Z)
| AtexitDelpid (path : string)             (* [atexit.register(self.delpid)] *)
| ForkCall
| Chdir (path : string)
| Setsid
| Redirect (stdin stdout stderr : string)  (* the three [dup2] of daemonize *)
| InstallSigterm                           (* [signal.signal(SIGTERM, ...)] *)
| Popen (args : list string) (redirected : bool)
| RegisterHandlers.

(** The state a process can read and change.  [child_pid] and [need_stop]
    are the class attributes of [AgentSupervisor]; an unset attribute is
    [None]. *)
Record world := mkWorld {
  fs : gmap string string;
  events : list event;
  child_pid : option Z;
  need_stop : bool
}.

Definition emit (e : event) (w : world) : world :=
  mkWorld (fs w) (events w ++ [e]) (child_pid w) (need_stop w).

Definition set_fs (f : gmap string string) (w : world) : world :=
  mkWorld f (events w) (child_pid w) (need_stop w).

Definition set_child_pid (c : option Z) (w : world) : world :=
  mkWorld (fs w) (events w) c (need_stop w).

Definition set_need_stop (b : bool) (w : world) : world :=
  mkWorld (fs w) (events w) (child_pid w) b.

(** How writing the PID file can go (lines 358 to 361). *)
Inductive write_fault := WriteOk | OpenFails | WriteFails | ChmodFails.

(** What reaches a process from outside while [AgentSupervisor.start]
    runs: the return of a system call it is blocked in, a signal, or simply
    the processor (the process runs to its next program point). *)
Inductive input :=
| Tick
| ForkReturns (r : OSError + Z)
| WaitpidReturns (r : OSError + Z * Z)
| Sigterm.

(** One run of a child process as [Popen] and [wait] see it: what it writes
    to its standard output ([false]) and standard error ([true]), in order,
    and its return code. *)
Record child := mkChild {
  writes : list (bool * string);
  returncode : Z
}.

(** The environment: how the system calls answer. *)
Record env := mkEnv {
  getpid : Z;
  kill : Z -> Z -> option OSError;         (* [None]: the signal was sent *)
  getpgid : Z -> OSError + Z;
  is_my_process : Z -> bool;               (* [utils.process.is_my_process] *)
  fork : nat -> OSError + Z;               (* fork #1 and fork #2 of daemonize *)
  pidfile_fault : string -> write_fault;
  platform : string;                       (* [sys.platform] *)
  script : list input;                     (* what happens under the supervisor *)
  spawn : list string -> bool -> option (list (string * string))
          -> exn + child;                  (* [Popen(args, ..., env=env)] *)
  signals_registrable : bool               (* else [signal.signal] raises *)
}.

(** ** The effect monad *)

Inductive outcome (A : Type) :=
| Ret (a : A)
| Exit (code : Z)          (* [sys.exit(code)] *)
| Raise (x : exn)
| Running.                 (* still in the supervision loop *)
Arguments Ret {A} a.
Arguments Exit {A} code.
Arguments Raise {A} x.
Arguments Running {A}.

Definition M (A : Type) : Type := world -> outcome A * world.

#[export] Instance M_ret : MRet M := fun A a w => (Ret a, w).

#[export] Instance M_bind : MBind M := fun A B k m w =>
  match m w with
  | (Ret a, w') => k a w'
  | (Exit c, w') => (Exit c, w')
  | (Raise x, w') => (Raise x, w')
  | (Running, w') => (Running, w')
  end.

Definition sys_exit {A} (code : Z) : M A := fun w => (Exit code, w).
Definition raise {A} (x : exn) : M A := fun w => (Raise x, w).
Definition get {A} (f : world -> A) : M A := fun w => (Ret (f w), w).
Definition modify (f : world -> world) : M unit := fun w => (Ret tt, f w).
Definition tell (e : event) : M unit := modify (emit e).
Definition log (lvl : level) (msg : string) : M unit := tell (Log lvl msg).

(** [try: m except OSError as e: h e] *)
Definition try_OSError {A} (m : M A) (h : OSError -> M A) : M A := fun w =>
  match m w with
  | (Raise (EOSError e), w') => h e w'
  | r => r
  end.

(** [try: m except Exception: h] *)
Definition try_Exception {A} (m : M A) (h : exn -> M A) : M A := fun w =>
  match m w with
  | (Raise x, w') => h x w'
  | r => r
  end.

(** [try: m except ...] with one clause per exception [h] accepts *)
Definition try_except {A} (m : M A) (h : exn -> option (M A)) : M A := fun w =>
  match m w with
  | (Raise x, w') =>
      match h x with
      | Some k => k w'
      | None => (Raise x, w')
      end
  | r => r
  end.

(** ** System calls *)

Section Calls.
Context (E : env).

Definition os_kill (pid sig : Z) : M unit :=
  tell (Kill pid sig);;
  match kill E pid sig with
  | None => mret tt
  | Some e => raise (EOSError e)
  end.

Definition os_getpgid (pid : Z) : M Z :=
  match getpgid E pid with
  | inr g => mret g
  | inl e => raise (EOSError e)
  end.

Definition os_fork (site : nat) : M Z :=
  tell ForkCall;;
  match fork E site with
  | inr pid => mret pid
  | inl e => raise (EOSError e)
  end.

(** [open(path, 'w+')]: the file is created or emptied. *)
Definition open_truncate (path : string) : M unit :=
  match pidfile_fault E path with
  | OpenFails => raise EIOError
  | _ => modify (fun w => set_fs (<[path := ""]> (fs w)) w)
  end.

(** [fp.write(data); fp.close()] on a file just opened with ['w+']. *)
Definition write_close (path data : string) : M unit :=
  match pidfile_fault E path with
  | WriteFails => raise EIOError
  | _ =>
      modify (fun w => set_fs (<[path := data]> (fs w)) w);;
      tell (WriteFile path data)
  end.

Definition os_chmod (path : string) (mode : Z) : M unit :=
  match pidfile_fault E path with
  | ChmodFails => raise (EOSError not_permitted)
  | _ => tell (Chmod path mode)
  end.

End Calls.

Definition path_exists (path : string) : M bool :=
  get (fun w => bool_decide (is_Some (fs w !! path))).

(** [os.remove(path)] *)
Definition os_remove (path : string) : M unit := fun w =>
  match fs w !! path with
  | Some _ => (Ret tt, emit (Unlink path) (set_fs (delete path (fs w)) w))
  | None => (Raise (EOSError no_such_file), w)
  end.

(** [file(path, 'r').read()] *)
Definition read_file (path : string) : M string := fun w =>
  match fs w !! path with
  | Some data => (Ret data, w)
  | None => (Raise EIOError, w)
  end.

(** [int(s)] *)
Definition py_int (s : string) : M Z :=
  match Py.int_of_str s with
  | Some n => mret n
  | None => raise EValueError
  end.

End Os.

(* ===================================================================== *)
(** * class AgentSupervisor *)
(* ===================================================================== *)

Module AgentSupervisor.
Import Os.

Definition RESTART_EXIT_STATUS : Z := 5.

(** [_handle_sigterm] (lines 83 to 90). *)
Definition _handle_sigterm (E : env) : M unit :=
  attr ← get child_pid;
  match attr with
  | Some c =>
      (* in the parent *)
      os_kill E c SIGTERM;;
      modify (set_need_stop true)
  | None =>
      (* in the child *)
      sys_exit 0
  end.

(** The program points of [start] at which something from outside can
    reach the process; the local variable [pid] is carried along. *)
Inductive pc :=
| LoopTop                (* line 50: about to clear [child_pid] *)
| AtFork                 (* line 52: inside [os.fork()] *)
| Forked (pid : Z)       (* line 53: [if pid > 0] *)
| PollTest (pid : Z)     (* line 56: [while not cls.need_stop] *)
| AtWaitpid (pid : Z)    (* line 57: inside [os.waitpid(pid, WNOHANG)] *)
| Sleeping (pid : Z)     (* line 60: [time.sleep(1)] *)
| ParentFunc (pid : Z)   (* line 61: [parent_func()] *)
| StopTest (pid : Z)     (* line 64: [if cls.need_stop] *)
| ChildFunc (pid : Z)    (* line 68: [child_func()] *)
| AfterLoop (pid : Z)    (* line 79: [if pid > 0] *)
| Returned               (* [start] has returned to its caller *)
| Exited (code : Z)      (* the process has called [sys.exit(code)] *)
| Failed (x : exn)       (* an exception has left [start] *)
| Busy.                  (* inside a callback that does not come back *)

Definition state : Type := pc * world.

(** The handler of lines 72 to 76, which every [OSError] raised inside the
    loop body reaches. *)
Definition fork_failed (e : OSError) : M unit :=
  let msg := "Agent fork failed: " +:+ Py.str_of_int (errno e)
             +:+ " (" +:+ strerror e +:+ ")" in
  log ERROR msg;;
  tell (Stderr (msg +:+ "
"));;
  sys_exit 1.

Definition leave {A} (r : outcome A * world) (next : pc) : state :=
  match r with
  | (Ret _, w) => (next, w)
  | (Exit c, w) => (Exited c, w)
  | (Raise x, w) => (Failed x, w)
  | (Running, w) => (Busy, w)
  end.

(** Run [m] inside the [try] of the loop body, then go to [next]. *)
Definition in_try (m : M unit) (next : pc) (w : world) : state :=
  leave (try_OSError m fork_failed w) next.

(** Run [m] outside of any [try]. *)
Definition bare (m : M unit) (next : pc) (w : world) : state :=
  leave (m w) next.

(** [if f is not None: f()] *)
Definition call (f : option (M unit)) : M unit :=
  match f with
  | Some f => f
  | None => mret tt
  end.

Section Start.
Context (E : env) (parent_func child_func : option (M unit)).

(** SIGTERM arrives while the process is at [p]. *)
Definition deliver (p : pc) (w : world) : state :=
  match p with
  | Returned | Exited _ | Failed _ | Busy => (p, w)
  | AfterLoop _ => bare (_handle_sigterm E) p w
  | _ => in_try (_handle_sigterm E) p w
  end.

(** One input.  An input the process is not waiting for changes nothing. *)
Definition step (i : input) (s : state) : state :=
  let '(p, w) := s in
  match i, p with
  | Sigterm, _ => deliver p w
  | Tick, LoopTop =>
      (* lines 50 to 52 *)
      (AtFork, emit ForkCall (set_child_pid None w))
  | ForkReturns (inr pid), AtFork => (Forked pid, w)
  | ForkReturns (inl e), AtFork => in_try (raise (EOSError e)) p w
  | Tick, Forked pid =>
      if 0 <? pid then
        (* line 55 *)
        (PollTest pid, set_child_pid (Some pid) w)
      else
        match child_func with
        | Some _ => (ChildFunc pid, w)
        | None => (AfterLoop pid, w)               (* line 71 *)
        end
  | Tick, PollTest pid =>
      if need_stop w then (ParentFunc pid, w) else (AtWaitpid pid, w)
  | WaitpidReturns (inr (cpid, status)), AtWaitpid pid =>
      (* line 58: [(cpid, status) != (0, 0)] *)
      if negb ((cpid =? 0) && (status =? 0)) then (ParentFunc pid, w)
      else (Sleeping pid, w)
  | WaitpidReturns (inl e), AtWaitpid pid => in_try (raise (EOSError e)) p w
  | Tick, Sleeping pid => (PollTest pid, w)
  | Tick, ParentFunc pid =>
      (* lines 61 and 62 *)
      in_try (call parent_func) (StopTest pid) w
  | Tick, StopTest pid =>
      if need_stop w then (AfterLoop pid, w) else (LoopTop, w)
  | Tick, ChildFunc pid =>
      match child_func with
      | Some f => in_try f LoopTop w
      | None => (AfterLoop pid, w)
      end
  | Tick, AfterLoop pid =>
      (* lines 79 and 80 *)
      if 0 <? pid then (Exited 0, w) else (Returned, w)
  | _, _ => s
  end.

Definition run (inputs : list input) (s : state) : state :=
  fold_left (fun s i => step i s) inputs s.

(** Lines 44 and 46. *)
Definition enter (w : world) : state :=
  (LoopTop, set_need_stop false (emit InstallSigterm w)).

(** [start(parent_func, child_func)] under the inputs of the environment. *)
Definition start : M unit := fun w =>
  match run (script E) (enter w) with
  | (Returned, w') => (Ret tt, w')
  | (Exited c, w') => (Exit c, w')
  | (Failed x, w') => (Raise x, w')
  | (_, w') => (Running, w')
  end.

End Start.

End AgentSupervisor.

(* ===================================================================== *)
(** * class ProcessRunner *)
(* ===================================================================== *)

Module ProcessRunner.
Import Os.

(** A [tempfile.TemporaryFile()]: its bytes and the file offset, which the
    parent shares with the child it hands the file to. *)
Record tempfile := mkTemp { data : string; offset : nat }.

Definition TemporaryFile : tempfile := mkTemp "" 0.

Definition take (n : nat) (s : string) : string := substring 0 n s.
Definition drop (n : nat) (s : string) : string :=
  substring n (String.length s - n) s.

(** [f.write(chunk)] at the current offset. *)
Definition write (chunk : string) (f : tempfile) : tempfile :=
  mkTemp (take (offset f) (data f) +:+ chunk
          +:+ drop (offset f + String.length chunk) (data f))
         (offset f + String.length chunk).

(** [f.seek(n)] *)
Definition seek (n : nat) (f : tempfile) : tempfile := mkTemp (data f) n.

(** [f.read()]: everything from the offset on; the offset moves to the end. *)
Definition read (f : tempfile) : string * tempfile :=
  (drop (offset f) (data f), mkTemp (data f) (String.length (data f))).

(** The [Popen] object: the child and, once waited for, its return code. *)
Record process := mkProcess { run_of : child; seen_returncode : option Z }.

(** The attributes [_process] and [_running] of a runner. *)
Record runner := mkRunner { _process : option process; _running : bool }.

(** [__init__] *)
Definition init : runner := mkRunner None true.

(** The property [status] (lines 99 to 106). *)
Definition status (self : runner) : Z :=
  match _process self with
  | Some _ => if _running self then 0 else 1
  | None => 1
  end.

(** The child runs until it exits ([Popen.wait()]).  With the streams
    redirected its output lands in the two temporary files, otherwise on the
    streams it inherited from the parent. *)
Fixpoint child_writes (redirect : bool) (ws : list (bool * string))
    (files : tempfile * tempfile) : M (tempfile * tempfile) :=
  match ws with
  | [] => mret files
  | (to_stderr, chunk) :: rest =>
      if redirect then
        child_writes redirect rest
          (if to_stderr then (files.1, write chunk files.2)
           else (write chunk files.1, files.2))
      else
        tell (if to_stderr then Stderr chunk else Stdout chunk);;
        child_writes redirect rest files
  end.

Section Methods.
Context (E : env).

(** [register_signal_handlers] (lines 117 to 129). *)
Definition register_signal_handlers : M unit :=
  if signals_registrable E then tell RegisterHandlers
  else log EXCEPTION "Unable to register signal handlers.".

(** [subprocess.Popen(process_args, ...)] *)
Definition popen (args : list string) (redirect : bool)
    (environ : option (list (string * string))) : M process :=
  tell (Popen args redirect);;
  match spawn E args redirect environ with
  | inr c => mret (mkProcess c None)
  | inl x => raise x
  end.

(** [execute] (lines 131 to 162); the new state of [self] is returned with
    the result. *)
Definition execute (self : runner) (process_args : list string)
    (redirect_std_streams : bool) (environ : option (list (string * string))) :
    M (option Z * runner) :=
  try_Exception
    (let stdout_f := TemporaryFile in
     let stderr_f := TemporaryFile in
     process ← popen process_args redirect_std_streams environ;
     let self := mkRunner (Some process) true in
     (* Register SIGINT and SIGTERM signal handlers *)
     register_signal_handlers;;
     (* Wait for process to return *)
     files ← child_writes redirect_std_streams (writes (run_of process))
               (stdout_f, stderr_f);
     let process := mkProcess (run_of process)
                      (Some (returncode (run_of process))) in
     let self := mkRunner (Some process) false in
     (if redirect_std_streams then
        let stderr_f := seek 0 files.2 in
        let '(err, stderr_f) := read stderr_f in
        let stdout_f := seek 0 files.1 in
        let '(out, stdout_f) := read stdout_f in
        tell (Stdout out);;
        tell (Stderr err)
      else mret tt);;
     mret (seen_returncode process, self))
    (fun x => log EXCEPTION "Could not launch process";; raise x).

End Methods.

End ProcessRunner.

(* ===================================================================== *)
(** * class Daemon *)
(* ===================================================================== *)

Module Daemon.
Import Os.

(** The attributes set by [__init__], the name of the concrete class
    ([self.__class__.__name__]) and its [run] method. *)
Record daemon := mkDaemon {
  pidfile : string;
  stdin : string;
  stdout : string;
  stderr : string;
  autorestart : bool;
  class_name : string;
  run : M unit
}.

(** [Daemon.run] itself (line 297). *)
Definition base_run : M unit := raise ENotImplementedError.

Section Methods.
Context (E : env) (self : daemon).

(** [pid] (lines 341 to 351): the PID of the PID file, or [None]. *)
Definition pid : M (option Z) :=
  try_except
    (data ← read_file (pidfile self);
     n ← py_int (Py.strip data);
     mret (Some n))
    (fun x =>
       match x with
       | EIOError => Some (mret None)
       | EValueError => Some (mret None)
       | _ => None
       end).

(** [write_pidfile] (lines 353 to 366). *)
Definition write_pidfile : M unit :=
  tell (AtexitDelpid (pidfile self));;
  let pid := Py.str_of_int (getpid E) in
  try_Exception
    (open_truncate E (pidfile self);;
     write_close E (pidfile self) pid;;
     os_chmod E (pidfile self) 420 (* 0644 *))
    (fun _ =>
       let msg := "Unable to write pidfile: " +:+ pidfile self in
       log EXCEPTION msg;;
       tell (Stderr (msg +:+ "
"));;
       sys_exit 1).

(** [delpid] (lines 368 to 372). *)
Definition delpid : M unit :=
  try_OSError (os_remove (pidfile self)) (fun _ => mret tt).

(** [daemonize] (lines 178 to 229). *)
Definition daemonize : M unit :=
  try_OSError
    (pid ← os_fork E 1;
     if 0 <? pid then sys_exit 0 (* Exit first parent *) else mret tt)
    (fun e =>
       let msg := "fork #1 failed: " +:+ Py.str_of_int (errno e)
                  +:+ " (" +:+ strerror e +:+ ")" in
       log ERROR msg;;
       tell (Stderr (msg +:+ "
"));;
       sys_exit 1);;
  log DEBUG "Fork 1 ok";;
  (* Decouple from parent environment *)
  tell (Chdir "/");;
  tell Setsid;;
  (if autorestart self then
     log INFO "Running with auto-restart ON";;
     AgentSupervisor.start E None None
   else
     (* Do second fork *)
     try_OSError
       (pid ← os_fork E 2;
        if 0 <? pid then sys_exit 0 (* Exit from second parent *) else mret tt)
       (fun e =>
          let msg := "fork #2 failed: " +:+ Py.str_of_int (errno e)
                     +:+ " (" +:+ strerror e +:+ ")" in
          log ERROR msg;;
          tell (Stderr (msg +:+ "
"));;
          sys_exit 1));;
  (if negb (String.eqb (platform E) "darwin") then
     (* Redirect standard file descriptors *)
     tell (Redirect (stdin self) (stdout self) (stderr self))
   else mret tt);;
  log INFO "Daemon started".

(** [start] (lines 231 to 249). *)
Definition start (foreground : bool) : M unit :=
  log INFO "Starting";;
  pid ← pid;
  (if Py.truthy pid then
     match pid with
     | Some p =>
         if is_my_process E p then
           log ERROR ("Not starting, another instance is already running"
                      +:+ " (using pidfile " +:+ pidfile self +:+ ")");;
           sys_exit 1
         else
           log WARN ("pidfile doesn't contain the pid of an agent process."
                     +:+ " Starting normally")
     | None => mret tt
     end
   else mret tt);;
  (if negb foreground then daemonize else mret tt);;
  write_pidfile;;
  run self.

(** The signalling of lines 261 to 271, inside the outer [try]. *)
Definition signal_daemon (p : Z) : M unit :=
  (if autorestart self then
     (* Try killing the supervising process *)
     try_OSError
       (pgid ← os_getpgid E p;
        os_kill E pgid SIGTERM)
       (fun _ =>
          pgid ← os_getpgid E p;
          log WARN ("Couldn't not kill parent pid " +:+ Py.str_of_int pgid
                    +:+ ". Killing pid.");;
          os_kill E p SIGTERM)
   else
     (* No supervising process present *)
     os_kill E p SIGTERM);;
  log INFO "Daemon is stopped".

(** The [else] branch of lines 276 to 285. *)
Definition not_running : M unit :=
  let message := "Pidfile " +:+ pidfile self
                 +:+ " does not exist. Not running?
" in
  log INFO message;;
  tell (Stderr message);;
  (* A ValueError might occur if the PID file is empty but does actually exist *)
  ex ← path_exists (pidfile self);
  (if ex : bool then os_remove (pidfile self) else mret tt);;
  mret tt. (* Not an error in a restart *)

(** The clause [except OSError as err] of lines 272 to 275. *)
Definition kill_failed (p : Z) (err : OSError) : M unit :=
  if Py.find (str_of_OSError err) "No such process" <=? 0 then
    log EXCEPTION ("Cannot kill Agent daemon at pid " +:+ Py.str_of_int p);;
    tell (Stderr (str_of_OSError err +:+ "
"))
  else mret tt.

(** [stop] (lines 251 to 285). *)
Definition stop : M unit :=
  log INFO "Stopping daemon";;
  pid ← pid;
  (* Clear the pid file *)
  ex ← path_exists (pidfile self);
  (if ex : bool then os_remove (pidfile self) else mret tt);;
  if Py.gt pid 1 then
    match pid with
    | Some p => try_OSError (signal_daemon p) (kill_failed p)
    | None => mret tt
    end
  else not_running.


(** [status] (lines 307 to 339). *)
Definition status : M unit :=
  pid ← pid;
  '(message, exit_code) ←
    (if Py.lt pid 0 then
       mret (class_name self +:+ " is not running", 1)
     else
       match pid with
       | Some p =>
           try_OSError
             (os_kill E p 0;;
              mret (class_name self +:+ " is running with pid "
                    +:+ Py.str_of_int p, 0))
             (fun e =>
                mret (if negb (errno e =? EPERM) then
                        class_name self +:+ " pidfile contains pid "
                        +:+ Py.str_of_int p
                        +:+ ", but no running process could be found"
                      else "You do not have sufficient permissions", 1))
       | None => mret (class_name self +:+ " is not running", 1)
       end);
  log INFO message;;
  tell (Stdout (message +:+ "
"));;
  sys_exit exit_code.

End Methods.

End Daemon.

(* ===================================================================== *)
(** * Vocabulary of the statements *)
(* ===================================================================== *)

Module Text.

(** No character of [s] is white space. *)
Fixpoint no_space (s : string) : bool :=
  match s with
  | EmptyString => true
  | String c r => negb (Py.is_space c) && no_space r
  end.

(** The character [c] does not occur in [s]. *)
Fixpoint lacks (c : ascii) (s : string) : bool :=
  match s with
  | EmptyString => true
  | String a r => negb (Ascii.eqb c a) && lacks c r
  end.

End Text.

Section Vocabulary.
Import Os.

(** The signals sent in a history of events: the [(pid, sig)] of each
    call of [os.kill]. *)
Definition signals_sent (evs : list event) : list (Z * Z) :=
  flat_map (fun e => match e with Kill p s => [(p, s)] | _ => [] end) evs.

(** [log.info(message); sys.stdout.write(message + newline)] *)
Definition announced (message : string) (w : world) : world :=
  emit (Stdout (message +:+ "
")) (emit (Log INFO message) w).

(** What the child wrote to one of its two streams, chunk after chunk. *)
Fixpoint captured (to_stderr : bool) (ws : list (bool * string)) : string :=
  match ws with
  | [] => ""
  | (t, chunk) :: rest =>
      if Bool.eqb t to_stderr then chunk +:+ captured to_stderr rest
      else captured to_stderr rest
  end.

(** A file whose offset is at its end, as a fresh temporary file is. *)
Definition at_end (f : ProcessRunner.tempfile) : Prop :=
  ProcessRunner.offset f = String.length (ProcessRunner.data f).

(** Where the parent can be once it has left the loop, and what the child
    branch knows about [pid]. *)
Definition left_loop_on_stop (s : AgentSupervisor.state) : Prop :=
  match s with
  | (AgentSupervisor.AfterLoop pid, w) => 0 < pid -> need_stop w = true
  | (AgentSupervisor.ChildFunc pid, _) => pid <= 0
  | _ => True
  end.

Context (self : Daemon.daemon).

(** What [pid()] returns in [w]. *)
Definition pid_value (w : world) : option Z :=
  match fs w !! Daemon.pidfile self with
  | Some text => Py.int_of_str (Py.strip text)
  | None => None
  end.

(** The world once lines 252 to 257 have run: the start of the stop is
    logged and the PID file, if there was one, is removed. *)
Definition cleared (w : world) : world :=
  let w1 := emit (Log INFO "Stopping daemon") w in
  match fs w !! Daemon.pidfile self with
  | Some _ =>
      emit (Unlink (Daemon.pidfile self))
        (set_fs (delete (Daemon.pidfile self) (fs w)) w1)
  | None => w1
  end.

(** The lines of the branch "not running" (lines 277 to 279). *)
Definition reported_not_running (w : world) : world :=
  let message := "Pidfile " +:+ Daemon.pidfile self
                 +:+ " does not exist. Not running?
" in
  emit (Stderr message) (emit (Log INFO message) w).

End Vocabulary.

(* ===================================================================== *)
(** * Sample environments *)
(* ===================================================================== *)

Module Sample.
Import Os.

(** A machine on which process 77 is the running agent, in process group
    70 that cannot be signalled; no other process exists. *)
Definition E : env :=
  mkEnv 4242
    (fun p _ => if p =? 77 then None else Some no_such_process)
    (fun p => if p =? 77 then inr 70 else inl no_such_process)
    (fun p => p =? 77)
    (fun _ => inr 0)
    (fun _ => WriteOk)
    "linux2"
    [Tick; ForkReturns (inr 0); Tick; Tick]
    (fun _ _ _ => inr (mkChild [(false, "A"); (true, "B")] 3))
    true.

Definition agent (autorestart : bool) : Daemon.daemon :=
  Daemon.mkDaemon "/var/run/agent.pid" "/dev/null" "/dev/null" "/dev/null"
    autorestart "Agent" (log INFO "agent running").

(** A world whose only file is the PID file, holding [text]. *)
Definition with_pidfile (text : string) : world :=
  mkWorld {[ "/var/run/agent.pid" := text ]} [] None false.

(** A world without any file. *)
Definition empty : world := mkWorld ∅ [] None false.

End Sample.

(* ===================================================================== *)
(** * Vocabulary of the further properties *)
(* ===================================================================== *)

Module Blank.

(** Every character of [s] is white space. *)
Fixpoint all_space (s : string) : bool :=
  match s with
  | EmptyString => true
  | String c r => Py.is_space c && all_space r
  end.

End Blank.

Section FurtherVocabulary.
Import Os.

(** The text written by [log.error] and to standard error when a fork of
    [daemonize] fails (lines 190 and 213). *)
Definition fork_failure_text (site : string) (e : OSError) : string :=
  "fork #" +:+ site +:+ " failed: " +:+ Py.str_of_int (errno e)
  +:+ " (" +:+ strerror e +:+ ")".

(** The text of line 73. *)
Definition agent_fork_failed_text (e : OSError) : string :=
  "Agent fork failed: " +:+ Py.str_of_int (errno e)
  +:+ " (" +:+ strerror e +:+ ")".

(** The world of a process that reported [msg] as an error and on standard
    error. *)
Definition complained (msg : string) (w : world) : world :=
  emit (Stderr (msg +:+ "
")) (emit (Log ERROR msg) w).

(** [n] rounds of the poll of lines 56 to 60 in which the child is still
    running: [os.waitpid] answers [(0, 0)], the parent sleeps and tests
    [need_stop] again. *)
Fixpoint polls (n : nat) : list input :=
  match n with
  | O => []
  | S n => WaitpidReturns (inr (0, 0)) :: Tick :: Tick :: polls n
  end.

(** The program points inside the [try] of the loop body. *)
Definition in_loop (p : AgentSupervisor.pc) : bool :=
  match p with
  | AgentSupervisor.AfterLoop _ | AgentSupervisor.Returned
  | AgentSupervisor.Exited _ | AgentSupervisor.Failed _
  | AgentSupervisor.Busy => false
  | _ => true
  end.

(** Where [child_pid] is unset: around the fork and in the child role.
    The parent role, where it is set, has a positive [pid]. *)
Definition untracked (s : AgentSupervisor.state) : Prop :=
  match s with
  | (AgentSupervisor.AtFork, w) => child_pid w = None
  | (AgentSupervisor.Forked _, w) => child_pid w = None
  | (AgentSupervisor.ChildFunc _, w) => child_pid w = None
  | (AgentSupervisor.AfterLoop pid, w) => pid <= 0 -> child_pid w = None
  | (AgentSupervisor.Returned, w) => child_pid w = None
  | (AgentSupervisor.PollTest pid, _) | (AgentSupervisor.AtWaitpid pid, _)
  | (AgentSupervisor.Sleeping pid, _) | (AgentSupervisor.ParentFunc pid, _)
  | (AgentSupervisor.StopTest pid, _) => 0 < pid
  | _ => True
  end.

(** What a child that inherited the streams of its parent shows on them. *)
Definition shown (ws : list (bool * string)) : list event :=
  map (fun '(to_stderr, chunk) =>
         if to_stderr : bool then Stderr chunk else Stdout chunk) ws.

Context (E : env) (self : Daemon.daemon).

(** The signals [stop] tries to send for the PID [p] (lines 261 to 270):
    to the process itself, or with [autorestart] to its process group and,
    when that fails, to the process. *)
Definition stop_signals (p : Z) : list (Z * Z) :=
  if Daemon.autorestart self then
    match getpgid E p with
    | inl _ => []
    | inr g =>
        match kill E g SIGTERM with
        | None => [(g, SIGTERM)]
        | Some _ => [(g, SIGTERM); (p, SIGTERM)]
        end
    end
  else [(p, SIGTERM)].

(** [start] finds a running instance (lines 235 to 241). *)
Definition refused (w : world) : bool :=
  match pid_value self w with
  | Some p => negb (p =? 0) && is_my_process E p
  | None => false
  end.

(** The world after the first lines of a [start] that is not refused:
    "Starting" is logged, and a warning when the PID file named a process
    that is not an agent. *)
Definition greeted (w : world) : world :=
  let w1 := emit (Log INFO "Starting") w in
  if Py.truthy (pid_value self w) then
    emit (Log WARN ("pidfile doesn't contain the pid of an agent process."
                    +:+ " Starting normally")) w1
  else w1.

(** What is in the PID file after a [write_pidfile] that met [fault]. *)
Definition pidfile_after (fault : write_fault) (w : world) : option string :=
  match fault with
  | OpenFails => fs w !! Daemon.pidfile self
  | WriteFails => Some ""
  | ChmodFails | WriteOk => Some (Py.str_of_int (getpid E))
  end.

End FurtherVocabulary.

Module Cases.
Import Os.

(** The sample machine seen from the process that launches the daemon:
    the first fork returns the id of the child. *)
Definition launcher : env :=
  mkEnv 4242 (kill Sample.E) (getpgid Sample.E) (is_my_process Sample.E)
    (fun site => inr (if Nat.eqb site 1 then 4243 else 0))
    (pidfile_fault Sample.E) (platform Sample.E) (script Sample.E)
    (spawn Sample.E) (signals_registrable Sample.E).

(** The sample machine with a PID file whose mode cannot be changed. *)
Definition no_chmod : env :=
  mkEnv 4242 (kill Sample.E) (getpgid Sample.E) (is_my_process Sample.E)
    (fork Sample.E) (fun _ => ChmodFails) (platform Sample.E)
    (script Sample.E) (spawn Sample.E) (signals_registrable Sample.E).

(** The sample machine on which no command can be launched. *)
Definition no_spawn : env :=
  mkEnv 4242 (kill Sample.E) (getpgid Sample.E) (is_my_process Sample.E)
    (fork Sample.E) (pidfile_fault Sample.E) (platform Sample.E)
    (script Sample.E) (fun _ _ _ => inl (EOSError no_such_file))
    (signals_registrable Sample.E).

End Cases.

(* ===================================================================== *)
(** * Facts about the builtins *)
(* ===================================================================== *)

Module PyFacts.
Import Py Text.

Lemma lstrip_no_space s : no_space s = true -> lstrip s = s.
Proof.
  destruct s as [|c r]; simpl; [reflexivity|].
  intros H. apply andb_prop in H as [Hc _].
  apply negb_true_iff in Hc. now rewrite Hc.
Qed.

Lemma rstrip_no_space s : no_space s = true -> rstrip s = s.
Proof.
  induction s as [|c r IH]; simpl; [reflexivity|].
  intros H. apply andb_prop in H as [Hc Hr].
  apply negb_true_iff in Hc. rewrite (IH Hr), Hc.
  now destruct r.
Qed.

Lemma strip_no_space s : no_space s = true -> strip s = s.
Proof.
  intros H. unfold strip. rewrite (lstrip_no_space _ H).
  now apply rstrip_no_space.
Qed.

Lemma no_space_digits d : no_space (NilEmpty.string_of_uint d) = true.
Proof. induction d; simpl; auto. Qed.

Lemma no_space_uint d : no_space (NilZero.string_of_uint d) = true.
Proof. destruct d; try reflexivity; apply (no_space_digits (_ _)). Qed.

Lemma no_space_int i : no_space (NilZero.string_of_int i) = true.
Proof. destruct i; simpl; apply no_space_uint. Qed.

(** Reading back the digits of [d] gives the number [d] denotes. *)
Lemma uint_round_trip d :
  Z.of_uint <$> NilZero.uint_of_string (NilZero.string_of_uint d)
  = Some (Z.of_uint d).
Proof.
  destruct d; [reflexivity | rewrite NilZero.usu by discriminate; reflexivity ..].
Qed.

(** [int] undoes the decimal text of any decimal numeral. *)
Lemma int_of_str_string_of_int i :
  int_of_str (NilZero.string_of_int i) = Some (Z.of_int i).
Proof.
  unfold int_of_str. rewrite (strip_no_space _ (no_space_int i)).
  destruct i as [d|d]; simpl NilZero.string_of_int.
  - pose proof (uint_round_trip d) as H.
    destruct d; exact H.
  - change (Z.opp <$> (Z.of_uint <$>
              NilZero.uint_of_string (lstrip (NilZero.string_of_uint d)))
            = Some (- Z.of_uint d)).
    rewrite (lstrip_no_space _ (no_space_uint d)), (uint_round_trip d).
    reflexivity.
Qed.

(** [int(str(n)) == n], also through [strip]. *)
Lemma int_of_str_of_int n : int_of_str (str_of_int n) = Some n.
Proof.
  unfold str_of_int. rewrite int_of_str_string_of_int.
  now rewrite DecimalZ.of_to.
Qed.

Lemma strip_str_of_int n : strip (str_of_int n) = str_of_int n.
Proof. apply strip_no_space, no_space_int. Qed.

Example int_of_str_examples :
  Py.int_of_str "1234" = Some 1234 /\
  Py.int_of_str " 42
" = Some 42 /\
  Py.int_of_str "-7" = Some (-7) /\
  Py.int_of_str "+007" = Some 7 /\
  Py.int_of_str "" = None /\
  Py.int_of_str "-" = None /\
  Py.int_of_str "12a" = None /\
  Py.int_of_str "1 2" = None /\
  Py.str_of_int (-120) = "-120" /\
  Py.str_of_int 0 = "0" /\
  Py.find "[Errno 3] No such process" "No such process" = 10 /\
  Py.find "[Errno 1] Operation not permitted" "No such process" = -1.
Proof. repeat split; reflexivity. Qed.

End PyFacts.


(* ===================================================================== *)
(** * Reasoning in the effect monad *)
(* ===================================================================== *)

Ltac unfold_M :=
  unfold Os.tell, Os.log, Os.modify, Os.get, Os.sys_exit, Os.raise,
    Os.try_OSError, Os.try_except, Os.try_Exception,
    mbind, Os.M_bind, mret, Os.M_ret in *.

(* ===================================================================== *)
(** * The PID file *)
(* ===================================================================== *)

Section PidFile.
Import Os Daemon.
Context (E : env) (self : daemon).

Lemma pid_absent w :
  fs w !! pidfile self = None -> pid self w = (Ret None, w).
Proof. intros H. unfold pid, read_file. unfold_M. now rewrite H. Qed.

Lemma pid_present w text :
  fs w !! pidfile self = Some text ->
  pid self w = (Ret (Py.int_of_str (Py.strip text)), w).
Proof.
  intros H. unfold pid, read_file, py_int. unfold_M. rewrite H.
  now destruct (Py.int_of_str (Py.strip text)).
Qed.

End PidFile.

Section RoundTrip.
Import Os Daemon.

(** C8. PID file round trip.  For every path and every process: when
    [write_pidfile] writes the PID file (no I/O failure) it returns, the
    file holds the decimal text of the PID [N] of the current process, and
    [pid()] then returns [N]; and [delpid] always returns, after which the
    file is gone and [pid()] returns [None], whatever the file held. *)
Theorem pidfile_round_trip (E : env) (self : daemon) (w : world) :
  (pidfile_fault E (pidfile self) = WriteOk ->
   exists w',
     write_pidfile E self w = (Ret tt, w') /\
     fs w' !! pidfile self = Some (Py.str_of_int (getpid E)) /\
     pid self w' = (Ret (Some (getpid E)), w')) /\
  (exists w',
     delpid self w = (Ret tt, w') /\
     fs w' !! pidfile self = None /\
     pid self w' = (Ret None, w')).
Proof.
  split.
  - intros Hok.
    unfold write_pidfile, open_truncate, write_close, os_chmod.
    rewrite Hok. unfold_M. cbn.
    eexists. split; [reflexivity|].
    assert (Hfs : forall f : gmap string string,
               <[pidfile self := Py.str_of_int (getpid E)]> f !! pidfile self
               = Some (Py.str_of_int (getpid E)))
      by (intros; apply lookup_insert_eq).
    split; [apply Hfs|].
    erewrite pid_present by apply Hfs.
    rewrite PyFacts.strip_str_of_int, PyFacts.int_of_str_of_int.
    reflexivity.
  - unfold delpid, os_remove. unfold_M.
    destruct (fs w !! pidfile self) eqn:Hf; cbn.
    + eexists. split; [reflexivity|].
      assert (Hgone : delete (pidfile self) (fs w) !! pidfile self = None)
        by apply lookup_delete_eq.
      split; [exact Hgone|]. now apply pid_absent.
    + exists w. split; [reflexivity|]. split; [exact Hf|]. now apply pid_absent.
Qed.

(** The round trip on a machine whose PID-file writes succeed. *)
Lemma pidfile_round_trip_witness :
  exists w',
    write_pidfile Sample.E (Sample.agent false) (Sample.with_pidfile "garbage")
    = (Ret tt, w') /\
    fs w' !! pidfile (Sample.agent false) = Some (Py.str_of_int 4242) /\
    pid (Sample.agent false) w' = (Ret (Some 4242), w').
Proof.
  exact (proj1 (pidfile_round_trip Sample.E (Sample.agent false)
                  (Sample.with_pidfile "garbage")) eq_refl).
Defined.

End RoundTrip.

(* ===================================================================== *)
(** * [Daemon.stop] *)
(* ===================================================================== *)

Section Stop.
Import Os Daemon.
Context (E : env) (self : daemon).

Lemma fs_emit e w : fs (emit e w) = fs w.
Proof. reflexivity. Qed.


Lemma pid_eq w : pid self w = (Ret (pid_value self w), w).
Proof.
  unfold pid_value. destruct (fs w !! pidfile self) eqn:H.
  - now apply pid_present.
  - now apply pid_absent.
Qed.

Lemma pid_value_Some w p :
  pid self w = (Ret (Some p), w) -> pid_value self w = Some p.
Proof. rewrite pid_eq. congruence. Qed.

Lemma pid_value_file w p :
  pid_value self w = Some p -> is_Some (fs w !! pidfile self).
Proof. unfold pid_value. destruct (fs w !! pidfile self); [eauto | discriminate]. Qed.


Lemma cleared_no_pidfile w : fs (cleared self w) !! pidfile self = None.
Proof.
  unfold cleared. destruct (fs w !! pidfile self) eqn:H; cbn.
  - apply lookup_delete_eq.
  - exact H.
Qed.

(** [stop] is the clean-up followed by one of its two branches. *)
Lemma stop_eq w :
  stop E self w =
  if Py.gt (pid_value self w) 1 then
    match pid_value self w with
    | Some p => try_OSError (signal_daemon E self p) (kill_failed p) (cleared self w)
    | None => (Ret tt, cleared self w)
    end
  else not_running self (cleared self w).
Proof.
  unfold stop. unfold mbind at 1, M_bind at 1. unfold log at 1, tell at 1, modify at 1.
  unfold mbind at 1, M_bind at 1. rewrite pid_eq.
  change (pid_value self (emit (Log INFO "Stopping daemon") w)) with (pid_value self w).
  unfold mbind at 1, M_bind at 1. unfold path_exists at 1, get at 1.
  unfold mbind at 1, M_bind at 1. unfold cleared, os_remove.
  rewrite !fs_emit.
  destruct (fs w !! pidfile self) eqn:Hf.
  - rewrite bool_decide_eq_true_2 by eauto.
    rewrite !fs_emit, Hf.
    destruct (Py.gt (pid_value self w) 1); [|reflexivity].
    destruct (pid_value self w); reflexivity.
  - rewrite bool_decide_eq_false_2 by (intros [? ?]; discriminate).
    unfold mret at 1, M_ret at 1.
    destruct (Py.gt (pid_value self w) 1); [|reflexivity].
    destruct (pid_value self w); reflexivity.
Qed.

(** The branch taken when no PID above 1 was read, on a world without the
    PID file. *)
Lemma not_running_eq w :
  fs w !! pidfile self = None ->
  not_running self w =
  (Ret tt,
   emit (Stderr ("Pidfile " +:+ pidfile self +:+ " does not exist. Not running?
"))
     (emit (Log INFO ("Pidfile " +:+ pidfile self
                      +:+ " does not exist. Not running?
")) w)).
Proof.
  intros H. unfold not_running, path_exists. unfold_M. cbn.
  rewrite bool_decide_eq_false_2; [reflexivity|].
  rewrite H. intros [? ?]; discriminate.
Qed.

End Stop.

(* ===================================================================== *)
(** * The text of an [OSError] and the test of line 273 *)
(* ===================================================================== *)

Module ErrorText.
Import Os Text.


Lemma lacks_app c s t : lacks c s = true -> lacks c t = true -> lacks c (s +:+ t) = true.
Proof.
  induction s as [|a r IH]; simpl; [auto|].
  intros H Ht. apply andb_prop in H as [Ha Hr].
  rewrite Ha. simpl. auto.
Qed.

(** A text that starts with [c] is searched for behind a prefix without
    any [c]: the prefix only shifts the answer. *)
Lemma index_behind_prefix c sub pre s :
  lacks c pre = true ->
  String.index 0 (String c sub) (pre +:+ s)
  = (fun i => (String.length pre + i)%nat) <$> String.index 0 (String c sub) s.
Proof.
  induction pre as [|a r IH]; intros H.
  - change (EmptyString +:+ s) with s.
    destruct (String.index 0 (String c sub) s); reflexivity.
  - simpl in H. apply andb_prop in H as [Ha Hr].
    apply negb_true_iff, Ascii.eqb_neq in Ha.
    change (String a r +:+ s) with (String a (r +:+ s)).
    cbn [String.index String.prefix].
    destruct (ascii_dec c a) as [->|_]; [contradiction|].
    rewrite (IH Hr).
    destruct (String.index 0 (String c sub) s); reflexivity.
Qed.

Lemma lacks_N_digits d : lacks "N" (NilEmpty.string_of_uint d) = true.
Proof. induction d; simpl; auto. Qed.

Lemma lacks_N_int n : lacks "N" (Py.str_of_int n) = true.
Proof.
  unfold Py.str_of_int.
  destruct (Z.to_int n) as [d|d]; simpl;
    (destruct d; try reflexivity; apply (lacks_N_digits (_ _))).
Qed.

(** [str(err)] mentions "No such process" exactly when the message of
    [err] does, and never at index 0: the test of line 273 asks whether the
    message lacks these words. *)
Lemma find_in_str_of_OSError e :
  (Py.find (str_of_OSError e) "No such process" <=? 0)
  = (Py.find (strerror e) "No such process" =? -1).
Proof.
  unfold Py.find, str_of_OSError.
  rewrite (index_behind_prefix "N" _ "[Errno ") by reflexivity.
  rewrite (index_behind_prefix "N" _ (Py.str_of_int (errno e))) by apply lacks_N_int.
  rewrite (index_behind_prefix "N" _ "] ") by reflexivity.
  destruct (String.index 0 "No such process" (strerror e)) as [i|]; simpl.
  - transitivity false; [apply Z.leb_gt; lia | symmetry; apply Z.eqb_neq; lia].
  - reflexivity.
Qed.

End ErrorText.

Section StopBranches.
Import Os Daemon.
Context (E : env) (self : daemon).



(** Signalling returns or raises an [OSError]; it only adds events. *)
Lemma signal_daemon_frame p w :
  exists w' rest,
    (signal_daemon E self p w = (Ret tt, w') \/
     exists e, signal_daemon E self p w = (Raise (EOSError e), w')) /\
    fs w' = fs w /\ events w' = (events w ++ rest)%list.
Proof.
  unfold signal_daemon, os_kill, os_getpgid. unfold_M.
  destruct (autorestart self); cbn.
  - destruct (getpgid E p) as [e|g]; cbn.
    + exists w, []. rewrite app_nil_r. eauto.
    + destruct (kill E g SIGTERM) as [e|]; cbn;
        [destruct (kill E p SIGTERM) as [e'|]; cbn|];
        eexists; eexists; (split; [eauto|]);
        (split; [reflexivity|]); cbn; rewrite <- ?app_assoc; reflexivity.
  - destruct (kill E p SIGTERM) as [e|]; cbn;
      eexists; eexists; (split; [eauto|]);
      (split; [reflexivity|]); cbn; rewrite <- ?app_assoc; reflexivity.
Qed.

(** Without a supervisor the signalling is the one [os.kill(pid, SIGTERM)]. *)
Lemma signal_daemon_direct p w e :
  autorestart self = false ->
  kill E p SIGTERM = Some e ->
  signal_daemon E self p w = (Raise (EOSError e), emit (Kill p SIGTERM) w).
Proof.
  intros Ha Hk. unfold signal_daemon, os_kill. unfold_M.
  rewrite Ha. cbn. rewrite Hk. reflexivity.
Qed.

Lemma kill_failed_eq p e w :
  kill_failed p e w =
  if Py.find (strerror e) "No such process" =? -1 then
    (Ret tt,
     emit (Stderr (str_of_OSError e +:+ "
"))
       (emit (Log EXCEPTION ("Cannot kill Agent daemon at pid "
                             +:+ Py.str_of_int p)) w))
  else (Ret tt, w).
Proof.
  unfold kill_failed. rewrite ErrorText.find_in_str_of_OSError.
  destruct (Py.find (strerror e) "No such process" =? -1); reflexivity.
Qed.


(** When [pid()] gave nothing above 1, [stop] is the clean-up and the
    report "not running". *)
Lemma stop_not_running w :
  Py.gt (pid_value self w) 1 = false ->
  stop E self w = (Ret tt, reported_not_running self (cleared self w)).
Proof.
  intros H. rewrite stop_eq, H.
  apply (not_running_eq self), cleared_no_pidfile.
Qed.

End StopBranches.

Section StopTheorems.
Import Os Daemon.

(** C9. When the PID file holds a valid integer [p <= 1] (1, 0, a negative
    number), [stop] sends no signal to any process or process group: it
    removes the PID file, reports the daemon as not running and returns,
    exactly as it does when the file holds no PID at all. *)
Theorem stop_pid_at_most_one (E : env) (self : daemon) (w : world) (p : Z) :
  pid self w = (Ret (Some p), w) ->
  p <= 1 ->
  stop E self w = (Ret tt, reported_not_running self (cleared self w)) /\
  signals_sent (events (reported_not_running self (cleared self w)))
    = signals_sent (events w) /\
  fs (reported_not_running self (cleared self w)) !! pidfile self = None /\
  (forall text,
     Py.int_of_str (Py.strip text) = None ->
     stop E self (set_fs (<[pidfile self := text]> (fs w)) w) = stop E self w).
Proof.
  intros Hpid Hp. apply pid_value_Some in Hpid.
  assert (Hgt : Py.gt (pid_value self w) 1 = false).
  { rewrite Hpid. cbn. apply Z.ltb_ge. lia. }
  destruct (pid_value_file self w p Hpid) as [old Hold].
  repeat split.
  - now apply stop_not_running.
  - unfold reported_not_running, cleared, signals_sent. rewrite Hold. cbn.
    rewrite !flat_map_app. cbn. now rewrite !app_nil_r.
  - apply (cleared_no_pidfile self w).
  - intros text Htext.
    rewrite (stop_not_running E self w Hgt).
    rewrite stop_not_running.
    + unfold cleared. cbn. rewrite lookup_insert_eq, Hold.
      now rewrite delete_insert_eq.
    + unfold pid_value. cbn. now rewrite lookup_insert_eq, Htext.
Qed.

(** A PID file that holds "1", on the sample machine. *)
Lemma stop_pid_at_most_one_witness :
  stop Sample.E (Sample.agent false) (Sample.with_pidfile "1")
  = (Ret tt,
     reported_not_running (Sample.agent false)
       (cleared (Sample.agent false) (Sample.with_pidfile "1"))).
Proof.
  refine (proj1 (stop_pid_at_most_one Sample.E (Sample.agent false)
                   (Sample.with_pidfile "1") 1 _ _)).
  - reflexivity.
  - lia.
Defined.



(** C5. Let [stop] reach the signalling step (the PID file gave [p > 1])
    and let the sending of SIGTERM raise the [OSError] [e].  The PID file was
    removed before anything was signalled.  If [e] is "No such process" it
    is swallowed: [stop] returns and adds nothing.  If the message of [e]
    does not say "No such process", [stop] logs the failure, writes the text
    of [e] to standard error, and returns all the same. *)
Theorem stop_signal_error (E : env) (self : daemon) (w w1 : world)
    (p : Z) (e : OSError) :
  pid self w = (Ret (Some p), w) ->
  1 < p ->
  signal_daemon E self p (cleared self w) = (Raise (EOSError e), w1) ->
  fs (cleared self w) !! pidfile self = None /\
  (exists sent,
     events w1
     = (events w ++ Log INFO "Stopping daemon" :: Unlink (pidfile self) :: sent)%list) /\
  fs w1 !! pidfile self = None /\
  (strerror e = "No such process" -> stop E self w = (Ret tt, w1)) /\
  (Py.find (strerror e) "No such process" = -1 ->
   stop E self w
   = (Ret tt,
      emit (Stderr (str_of_OSError e +:+ "
"))
        (emit (Log EXCEPTION ("Cannot kill Agent daemon at pid "
                              +:+ Py.str_of_int p)) w1))).
Proof.
  intros Hpid Hp Hsig. apply pid_value_Some in Hpid.
  pose proof (cleared_no_pidfile self w) as Hgone.
  destruct (pid_value_file self w p Hpid) as [old Hold].
  destruct (signal_daemon_frame E self p (cleared self w))
    as (w' & rest & Hres & Hfs & Hev).
  assert (w' = w1) as ->.
  { destruct Hres as [H | [e' H]]; rewrite H in Hsig; congruence. }
  assert (Hstop : stop E self w = kill_failed p e w1).
  { rewrite stop_eq, Hpid. cbn.
    replace (1 <? p) with true by (symmetry; apply Z.ltb_lt; lia).
    unfold try_OSError. now rewrite Hsig. }
  repeat split.
  - exact Hgone.
  - exists rest. rewrite Hev. unfold cleared. rewrite Hold. cbn.
    now rewrite <- !app_assoc.
  - now rewrite Hfs.
  - intros He. rewrite Hstop, kill_failed_eq, He. reflexivity.
  - intros He. rewrite Hstop, kill_failed_eq, He. reflexivity.
Qed.

(** The PID file names process 78, which does not exist on the sample
    machine: the signal fails with "No such process" and [stop] returns. *)
Lemma stop_signal_error_witness :
  stop Sample.E (Sample.agent false) (Sample.with_pidfile "78")
  = (Ret tt,
     emit (Kill 78 SIGTERM)
       (cleared (Sample.agent false) (Sample.with_pidfile "78"))).
Proof.
  refine (proj1 (proj2 (proj2 (proj2
            (stop_signal_error Sample.E (Sample.agent false)
               (Sample.with_pidfile "78") _ 78 no_such_process _ _ _)))) _).
  - reflexivity.
  - lia.
  - reflexivity.
  - reflexivity.
Defined.

End StopTheorems.

(* ===================================================================== *)
(** * [Daemon.status], [Daemon.start] and [Daemon.restart] *)
(* ===================================================================== *)

Section Lifecycle.
Import Os Daemon.


(** C4. [status] by cases on the PID file and on the probe
    [os.kill(pid, 0)].  Without a PID in the file (absent file, text that is
    no integer) it prints "<name> is not running" and exits 1.  For a PID
    (line 313 takes a negative integer for no PID, and does not probe it):
    if the probe raises EPERM it reports insufficient permissions and exits
    1; if the probe raises another [OSError] it reports that no running
    process could be found and exits 1; if the probe succeeds it reports the
    daemon running with that pid and exits 0. *)
Theorem status_tri_state (E : env) (self : daemon) (w : world) :
  (pid self w = (Ret None, w) ->
   status E self w
   = (Exit 1, announced (class_name self +:+ " is not running") w)) /\
  (forall p,
     pid self w = (Ret (Some p), w) ->
     (p < 0 ->
      status E self w
      = (Exit 1, announced (class_name self +:+ " is not running") w)) /\
     (0 <= p ->
      (forall e, kill E p 0 = Some e -> errno e = EPERM ->
         status E self w
         = (Exit 1,
            announced "You do not have sufficient permissions"
              (emit (Kill p 0) w))) /\
      (forall e, kill E p 0 = Some e -> errno e <> EPERM ->
         status E self w
         = (Exit 1,
            announced (class_name self +:+ " pidfile contains pid "
                       +:+ Py.str_of_int p
                       +:+ ", but no running process could be found")
              (emit (Kill p 0) w))) /\
      (kill E p 0 = None ->
         status E self w
         = (Exit 0,
            announced (class_name self +:+ " is running with pid "
                       +:+ Py.str_of_int p)
              (emit (Kill p 0) w))))).
Proof.
  split.
  - intros Hpid. unfold status. unfold mbind at 1, M_bind at 1.
    rewrite Hpid. reflexivity.
  - intros p Hpid.
    assert (Hstatus : forall k : option Z -> M unit,
               (pid self ≫= k) w = k (Some p) w).
    { intros k. unfold mbind, M_bind. now rewrite Hpid. }
    unfold status. rewrite Hstatus. cbn [Py.lt].
    split; [|intros Hp; split; [|split]].
    + intros Hp. apply Z.ltb_lt in Hp. rewrite Hp. reflexivity.
    + intros e Hk He.
      replace (p <? 0) with false by (symmetry; apply Z.ltb_ge; lia).
      unfold os_kill. unfold_M. cbn. rewrite Hk. cbn.
      apply Z.eqb_eq in He. rewrite He. reflexivity.
    + intros e Hk He.
      replace (p <? 0) with false by (symmetry; apply Z.ltb_ge; lia).
      unfold os_kill. unfold_M. cbn. rewrite Hk. cbn.
      apply Z.eqb_neq in He. rewrite He. reflexivity.
    + intros Hk.
      replace (p <? 0) with false by (symmetry; apply Z.ltb_ge; lia).
      unfold os_kill. unfold_M. cbn. rewrite Hk. reflexivity.
Qed.

(** [status] for the running agent of the sample machine. *)
Lemma status_tri_state_witness :
  status Sample.E (Sample.agent false) (Sample.with_pidfile "77
")
  = (Exit 0,
     announced "Agent is running with pid 77"
       (emit (Kill 77 0) (Sample.with_pidfile "77
"))).
Proof.
  destruct (status_tri_state Sample.E (Sample.agent false)
              (Sample.with_pidfile "77
")) as [_ Hpid].
  destruct (Hpid 77 eq_refl) as [_ Hprobe].
  destruct Hprobe as (_ & _ & Hrunning); [lia|].
  apply Hrunning. reflexivity.
Defined.

(** C3. When the PID file yields a PID [p] (line 235 takes 0 for no PID)
    and [is_my_process(p)] is true, [start(foreground)] refuses: it logs the
    error and exits with status 1.  Nothing else has happened: no fork of
    [daemonize], the PID file and every other file is as it was, and the
    outcome does not depend on [run]. *)
Theorem start_refuses_double_start (E : env) (self : daemon)
    (foreground : bool) (w : world) (p : Z) :
  pid self w = (Ret (Some p), w) ->
  p <> 0 ->
  is_my_process E p = true ->
  start E self foreground w
  = (Exit 1,
     emit (Log ERROR ("Not starting, another instance is already running"
                      +:+ " (using pidfile " +:+ pidfile self +:+ ")"))
       (emit (Log INFO "Starting") w)) /\
  fs (start E self foreground w).2 = fs w.
Proof.
  intros Hpid Hp Hmine.
  assert (Hpid' : pid self (emit (Log INFO "Starting") w)
                  = (Ret (Some p), emit (Log INFO "Starting") w)).
  { rewrite pid_eq in *. unfold pid_value in *. rewrite fs_emit.
    injection Hpid as Hpid. now rewrite Hpid. }
  assert (Hstart : start E self foreground w
    = (Exit 1,
       emit (Log ERROR ("Not starting, another instance is already running"
                        +:+ " (using pidfile " +:+ pidfile self +:+ ")"))
         (emit (Log INFO "Starting") w))).
  { unfold start. unfold mbind at 1, M_bind at 1.
    unfold log at 1, tell at 1, modify at 1.
    unfold mbind at 1, M_bind at 1. rewrite Hpid'.
    unfold mbind at 1, M_bind at 1.
    cbn [Py.truthy]. apply Z.eqb_neq in Hp. rewrite Hp, Hmine. reflexivity. }
  split; [exact Hstart|]. rewrite Hstart. reflexivity.
Qed.

(** The running agent of the sample machine is not started twice. *)
Lemma start_refuses_double_start_witness :
  start Sample.E (Sample.agent true) false (Sample.with_pidfile "77")
  = (Exit 1,
     emit (Log ERROR ("Not starting, another instance is already running"
                      +:+ " (using pidfile /var/run/agent.pid)"))
       (emit (Log INFO "Starting") (Sample.with_pidfile "77"))).
Proof.
  refine (proj1 (start_refuses_double_start Sample.E (Sample.agent true) false
                   (Sample.with_pidfile "77") 77 _ _ _)).
  - reflexivity.
  - lia.
  - reflexivity.
Defined.


End Lifecycle.

(* ===================================================================== *)
(** * [AgentSupervisor] *)
(* ===================================================================== *)

Section Handler.
Import Os AgentSupervisor.



End Handler.

Section Supervision.
Import Os AgentSupervisor.
Context (E : env) (parent_func child_func : option (M unit)).

Abbreviation step := (step E parent_func child_func).
Abbreviation run := (run E parent_func child_func).

Lemma run_cons i rest s : run (i :: rest) s = run rest (step i s).
Proof. reflexivity. Qed.


Lemma leave_left_loop {A} (r : outcome A * world) next :
  (forall w, left_loop_on_stop (next, w)) -> left_loop_on_stop (leave r next).
Proof. intros H. destruct r as [[a|c|x|] w]; [apply H | exact I ..]. Qed.

Lemma step_left_loop i s : left_loop_on_stop s -> left_loop_on_stop (step i s).
Proof.
  destruct s as [p w]. intros H.
  destruct i as [ | [e|pid'] | [e|[cpid status]] | ].
  - (* Tick *)
    destruct p; cbn in *; auto.
    + destruct (0 <? pid) eqn:Hpid; cbn; [auto|].
      apply Z.ltb_ge in Hpid.
      destruct child_func; cbn; [exact Hpid | lia].
    + destruct (need_stop w); cbn; auto.
    + unfold in_try. apply leave_left_loop. cbn. auto.
    + destruct (need_stop w) eqn:Hstop; cbn; auto.
    + destruct child_func; cbn; [|lia].
      unfold in_try. apply leave_left_loop. cbn. auto.
    + destruct (0 <? pid); cbn; auto.
  - destruct p; cbn in *; auto.
  - destruct p; cbn in *; auto.
  - destruct p; cbn in *; auto.
  - destruct p; cbn in *; auto.
    destruct (negb _); cbn; auto.
  - (* Sigterm *)
    destruct p; cbn -[_handle_sigterm] in *; auto;
      try (unfold in_try; apply leave_left_loop; cbn; now auto).
    unfold bare.
    destruct (_handle_sigterm E w) as [[[]|c|x|] w'] eqn:Hh; cbn; auto.
    intros Hpid.
    unfold _handle_sigterm, os_kill in Hh. unfold_M.
    destruct (child_pid w); cbn in Hh; [|discriminate].
    destruct (kill E _ SIGTERM); cbn in Hh; [discriminate|].
    now injection Hh as <-.
Qed.

Lemma run_left_loop inputs s : left_loop_on_stop s -> left_loop_on_stop (run inputs s).
Proof.
  revert s. induction inputs as [|i rest IH]; intros s H; [exact H|].
  rewrite run_cons. now apply IH, step_left_loop.
Qed.

(** [os.waitpid] reporting a process ([cpid] is not 0) ends the poll
    whatever the status. *)
Lemma step_child_exit cpid status s :
  cpid <> 0 ->
  step (WaitpidReturns (inr (cpid, status))) s
  = match s with
    | (AtWaitpid pid, w) => (ParentFunc pid, w)
    | _ => s
    end.
Proof.
  intros Hc. apply Z.eqb_neq in Hc.
  destruct s as [p w]. destruct p; cbn; try reflexivity.
  now rewrite Hc.
Qed.

(** C1. In [AgentSupervisor.start], let the tracked child exit
    ([os.waitpid] reports a process, with any status whatsoever, the
    reserved status 5 included), let [parent_func], if there is one, return,
    and let [need_stop] be false.  Then the parent goes back to the top of
    the loop, clears [child_pid] and forks again.  The status is never looked
    at: any other status gives the same run, whatever comes next.  And the
    parent (the process in which [fork] returned a positive id) is past the
    loop only with [need_stop] true: line 64 is the one exit. *)
Theorem supervisor_reforks (w w' : world) (pid cpid status : Z) :
  cpid <> 0 ->
  call parent_func w = (Ret tt, w') ->
  need_stop w' = false ->
  run [WaitpidReturns (inr (cpid, status)); Tick; Tick; Tick] (AtWaitpid pid, w)
  = (AtFork, emit ForkCall (set_child_pid None w')) /\
  (forall status' rest s,
     run (WaitpidReturns (inr (cpid, status)) :: rest) s
     = run (WaitpidReturns (inr (cpid, status')) :: rest) s) /\
  (forall pid' w1,
     step Tick (StopTest pid', w1)
     = if need_stop w1 then (AfterLoop pid', w1) else (LoopTop, w1)) /\
  (forall inputs w0 pid' w1,
     run inputs (enter w0) = (AfterLoop pid', w1) ->
     0 < pid' -> need_stop w1 = true).
Proof.
  intros Hc Hcall Hstop. repeat split.
  - rewrite run_cons, (step_child_exit _ _ _ Hc).
    rewrite run_cons. cbn [AgentSupervisor.step]. unfold in_try, try_OSError.
    rewrite Hcall. cbn [leave].
    rewrite run_cons. cbn [AgentSupervisor.step]. rewrite Hstop.
    reflexivity.
  - intros status' rest s.
    now rewrite !run_cons, !(step_child_exit _ _ _ Hc).
  - intros inputs w0 pid' w1 Hrun Hpid.
    pose proof (run_left_loop inputs (enter w0) I) as Hinv.
    rewrite Hrun in Hinv. exact (Hinv Hpid).
Qed.

End Supervision.

(** The child tracked as 77 exits with the status reserved for restarts;
    no [parent_func], no stop requested: the parent forks again. *)
Lemma supervisor_reforks_witness :
  AgentSupervisor.run Sample.E None None
    [Os.WaitpidReturns (inr (77, AgentSupervisor.RESTART_EXIT_STATUS));
     Os.Tick; Os.Tick; Os.Tick]
    (AgentSupervisor.AtWaitpid 77, Os.set_child_pid (Some 77) Sample.empty)
  = (AgentSupervisor.AtFork,
     Os.emit Os.ForkCall
       (Os.set_child_pid None (Os.set_child_pid (Some 77) Sample.empty))).
Proof.
  refine (proj1 (supervisor_reforks Sample.E None None
                   (Os.set_child_pid (Some 77) Sample.empty) _ 77 77
                   AgentSupervisor.RESTART_EXIT_STATUS _ _ _)).
  - lia.
  - reflexivity.
  - reflexivity.
Defined.

(* ===================================================================== *)
(** * [ProcessRunner.execute] *)
(* ===================================================================== *)

Section Execute.
Import Os ProcessRunner.


Lemma append_cons a s t : String a s +:+ t = String a (s +:+ t).
Proof. reflexivity. Qed.

Lemma append_empty_r s : s +:+ "" = s.
Proof.
  induction s as [|a s IH]; [reflexivity|].
  now rewrite append_cons, IH.
Qed.

Lemma append_assoc s t u : (s +:+ t) +:+ u = s +:+ (t +:+ u).
Proof.
  induction s as [|a s IH]; [reflexivity|].
  now rewrite !append_cons, IH.
Qed.

Lemma length_append s t :
  String.length (s +:+ t) = (String.length s + String.length t)%nat.
Proof.
  induction s as [|a s IH]; [reflexivity|].
  rewrite append_cons. simpl. now rewrite IH.
Qed.

Lemma take_all s : take (String.length s) s = s.
Proof. unfold take. induction s; simpl; congruence. Qed.

Lemma substring_past n m s : (String.length s <= n)%nat -> substring n m s = "".
Proof.
  revert n m. induction s as [|c r IH]; intros n m H.
  - destruct n, m; reflexivity.
  - destruct n as [|n]; simpl in *; [lia|]. apply IH. lia.
Qed.

Lemma drop_past n s : (String.length s <= n)%nat -> drop n s = "".
Proof. apply substring_past. Qed.

Lemma drop_0 s : drop 0 s = s.
Proof. unfold drop. rewrite Nat.sub_0_r. apply take_all. Qed.


(** Writing at the end appends. *)
Lemma write_at_end chunk f :
  at_end f ->
  write chunk f = mkTemp (data f +:+ chunk) (String.length (data f +:+ chunk)).
Proof.
  unfold at_end, write. intros ->.
  rewrite take_all, drop_past by lia.
  now rewrite append_empty_r, length_append.
Qed.

(** With the streams redirected, the child leaves in each file what it
    wrote to that stream, and nothing shows on the parent's streams. *)
Lemma child_writes_redirected ws fo fe w :
  at_end fo -> at_end fe ->
  child_writes true ws (fo, fe) w
  = (Ret (mkTemp (data fo +:+ captured false ws)
                 (String.length (data fo +:+ captured false ws)),
          mkTemp (data fe +:+ captured true ws)
                 (String.length (data fe +:+ captured true ws))), w).
Proof.
  revert fo fe. induction ws as [|[t chunk] rest IH]; intros fo fe Ho He.
  - cbn. rewrite !append_empty_r.
    unfold at_end in *. rewrite <- Ho, <- He. now destruct fo, fe.
  - cbn [child_writes fst snd]. destruct t.
    + rewrite (write_at_end chunk fe He).
      rewrite IH by (exact Ho || reflexivity). cbn.
      now rewrite !append_assoc.
    + rewrite (write_at_end chunk fo Ho).
      rewrite IH by (exact He || reflexivity). cbn.
      now rewrite !append_assoc.
Qed.

(** C7. [execute] with the standard streams redirected, for a child that
    is launched, writes to its two streams in any order and exits: what the
    child wrote to its standard output is written, as it is, to the parent's
    standard output, then what it wrote to its standard error to the
    parent's standard error (the error file is read first, the output is
    written first); nothing else reaches the two streams; and the value
    returned is the return code of the child. *)
Theorem execute_redirected (E : env) (self : runner) (args : list string)
    (environ : option (list (string * string))) (c : child) (w : world) :
  spawn E args true environ = inr c ->
  exists self' w',
    execute E self args true environ w
    = (Ret (Some (returncode c), self'), w') /\
    status self' = 1 /\
    events w'
    = (events w
       ++ [Popen args true;
           if signals_registrable E then RegisterHandlers
           else Log EXCEPTION "Unable to register signal handlers.";
           Stdout (captured false (writes c));
           Stderr (captured true (writes c))])%list.
Proof.
  intros Hspawn.
  unfold execute, popen, register_signal_handlers. rewrite Hspawn.
  unfold try_Exception.
  unfold mbind at 1, M_bind at 1.
  unfold mbind at 1, M_bind at 1. unfold tell at 1, modify at 1.
  unfold mret at 1, M_ret at 1.
  unfold mbind at 1, M_bind at 1.
  assert (Hreg : forall w0,
    (if signals_registrable E then tell RegisterHandlers
     else log EXCEPTION "Unable to register signal handlers.") w0
    = (Ret tt, emit (if signals_registrable E then RegisterHandlers
                     else Log EXCEPTION "Unable to register signal handlers.") w0)).
  { intros w0. destruct (signals_registrable E); reflexivity. }
  rewrite Hreg.
  unfold mbind at 1, M_bind at 1. cbn [run_of].
  rewrite child_writes_redirected by reflexivity.
  cbn [fst snd seek read data offset TemporaryFile].
  rewrite !drop_0.
  eexists. eexists. split; [reflexivity|]. split; [reflexivity|].
  cbn. now rewrite <- !app_assoc.
Qed.

(** The child of the sample machine writes "A" to its standard output and
    "B" to its standard error, and exits with code 3. *)
Lemma execute_redirected_witness :
  exists self' w',
    execute Sample.E init ["sh"; "-c"; "echo A; echo B 1>&2; exit 3"] true
      None Sample.empty
    = (Ret (Some 3, self'), w') /\
    status self' = 1 /\
    events w'
    = [Popen ["sh"; "-c"; "echo A; echo B 1>&2; exit 3"] true;
       RegisterHandlers; Stdout "A"; Stderr "B"].
Proof.
  exact (execute_redirected Sample.E init
           ["sh"; "-c"; "echo A; echo B 1>&2; exit 3"] None
           (mkChild [(false, "A"); (true, "B")] 3) Sample.empty eq_refl).
Defined.

End Execute.

(* ===================================================================== *)
(** * More on the PID file *)
(* ===================================================================== *)

Section Blanks.
Import Os Daemon Blank.

Lemma lstrip_all_space pre s :
  all_space pre = true -> Py.lstrip (pre +:+ s) = Py.lstrip s.
Proof.
  induction pre as [|c r IH]; [reflexivity|].
  simpl. intros H. apply andb_prop in H as [Hc Hr].
  rewrite ?append_cons. simpl. rewrite Hc. auto.
Qed.

Lemma rstrip_all_space post : all_space post = true -> Py.rstrip post = "".
Proof.
  induction post as [|c r IH]; [reflexivity|].
  simpl. intros H. apply andb_prop in H as [Hc Hr].
  now rewrite (IH Hr), Hc.
Qed.

Lemma rstrip_behind s post :
  Text.no_space s = true -> s <> "" -> all_space post = true ->
  Py.rstrip (s +:+ post) = s.
Proof.
  induction s as [|c r IH]; [congruence|].
  simpl. intros H _ Hpost. apply andb_prop in H as [Hc Hr].
  apply negb_true_iff in Hc.
  rewrite ?append_cons. simpl.
  destruct r as [|c' r'].
  - change ("" +:+ post) with post.
    now rewrite (rstrip_all_space _ Hpost), Hc.
  - rewrite (IH Hr); [reflexivity | discriminate | exact Hpost].
Qed.

Lemma strip_between pre s post :
  all_space pre = true -> Text.no_space s = true -> s <> "" ->
  all_space post = true ->
  Py.strip (pre +:+ s +:+ post) = s.
Proof.
  intros Hpre Hs Hne Hpost. unfold Py.strip.
  rewrite (lstrip_all_space _ _ Hpre).
  assert (Hl : Py.lstrip (s +:+ post) = s +:+ post).
  { destruct s as [|c r]; [congruence|].
    simpl in Hs. apply andb_prop in Hs as [Hc _].
    apply negb_true_iff in Hc. rewrite ?append_cons. simpl. now rewrite Hc. }
  rewrite Hl. now apply rstrip_behind.
Qed.

Lemma str_of_int_not_empty n : Py.str_of_int n <> "".
Proof.
  unfold Py.str_of_int.
  destruct (Z.to_int n) as [d|d]; simpl; [|discriminate].
  destruct d; discriminate.
Qed.

(** [pid()] reads a PID through any white space around it (a file written
    with a final newline, say), and takes a file of white space only, the
    empty file included, for no PID. *)
Theorem pid_ignores_blanks (self : daemon) (w : world) (pre post : string) (n : Z) :
  all_space pre = true ->
  all_space post = true ->
  (fs w !! pidfile self = Some (pre +:+ Py.str_of_int n +:+ post) ->
   pid self w = (Ret (Some n), w)) /\
  (fs w !! pidfile self = Some pre -> pid self w = (Ret None, w)).
Proof.
  intros Hpre Hpost. split; intros Hf; rewrite (pid_present self w _ Hf).
  - rewrite strip_between;
      [| exact Hpre | apply PyFacts.no_space_int
       | apply str_of_int_not_empty | exact Hpost].
    now rewrite PyFacts.int_of_str_of_int.
  - assert (Hs : Py.strip pre = "").
    { unfold Py.strip.
      rewrite <- (append_empty_r pre), (lstrip_all_space _ _ Hpre).
      reflexivity. }
    rewrite Hs. reflexivity.
Qed.

(** A PID file as a shell writes it: the number and a newline. *)
Lemma pid_ignores_blanks_witness :
  pid (Sample.agent false) (Sample.with_pidfile "  4242
") = (Ret (Some 4242), Sample.with_pidfile "  4242
").
Proof.
  refine (proj1 (pid_ignores_blanks (Sample.agent false)
                   (Sample.with_pidfile "  4242
") "  " "
" 4242 _ _) _); reflexivity.
Defined.

End Blanks.

Section WriteFault.
Import Os Daemon.

(** When writing the PID file fails, at [open], at [write] or at [chmod],
    [write_pidfile] reports "Unable to write pidfile" in the log and on
    standard error and exits with status 1, the clean-up being registered
    already.  What is left in the file depends on the step that failed: the
    old content, an empty file, or the new PID. *)
Theorem write_pidfile_fault (E : env) (self : daemon) (w : world) :
  pidfile_fault E (pidfile self) <> WriteOk ->
  exists w' written,
    write_pidfile E self w = (Exit 1, w') /\
    fs w' !! pidfile self
    = pidfile_after E self (pidfile_fault E (pidfile self)) w /\
    events w'
    = (events w ++ AtexitDelpid (pidfile self) :: written
       ++ [Log EXCEPTION ("Unable to write pidfile: " +:+ pidfile self);
           Stderr ("Unable to write pidfile: " +:+ pidfile self +:+ "
")])%list.
Proof.
  intros Hfault.
  unfold write_pidfile, open_truncate, write_close, os_chmod, pidfile_after.
  destruct (pidfile_fault E (pidfile self)); [congruence| | |];
    unfold_M; cbn.
  - exists (emit (Stderr ("Unable to write pidfile: " +:+ pidfile self +:+ "
"))
      (emit (Log EXCEPTION ("Unable to write pidfile: " +:+ pidfile self))
         (emit (AtexitDelpid (pidfile self)) w))), [].
    repeat split. cbn. now rewrite <- !app_assoc.
  - eexists. exists []. split; [reflexivity|]. cbn. split.
    + apply lookup_insert_eq.
    + now rewrite <- !app_assoc.
  - eexists. exists [WriteFile (pidfile self) (Py.str_of_int (getpid E))].
    split; [reflexivity|]. cbn. split.
    + apply lookup_insert_eq.
    + now rewrite <- !app_assoc.
Qed.

(** The mode of the PID file cannot be set: the file holds the PID, and
    the process exits all the same. *)
Lemma write_pidfile_fault_witness :
  exists w' written,
    write_pidfile Cases.no_chmod (Sample.agent false) Sample.empty = (Exit 1, w') /\
    fs w' !! "/var/run/agent.pid" = Some "4242" /\
    events w'
    = (AtexitDelpid "/var/run/agent.pid" :: written
       ++ [Log EXCEPTION "Unable to write pidfile: /var/run/agent.pid";
           Stderr "Unable to write pidfile: /var/run/agent.pid
"])%list.
Proof.
  refine (write_pidfile_fault Cases.no_chmod (Sample.agent false) Sample.empty _).
  discriminate.
Defined.

End WriteFault.

(* ===================================================================== *)
(** * More on [Daemon.start] *)
(* ===================================================================== *)

Section Starting.
Import Os Daemon.
Context (E : env) (self : daemon).

(** A [start] that is not refused logs, then daemonizes unless in the
    foreground, writes the PID file and runs. *)
Lemma start_eq foreground w :
  refused E self w = false ->
  start E self foreground w
  = ((if negb foreground then daemonize E self else mret tt);;
     write_pidfile E self;; run self) (greeted self w).
Proof.
  intros Href. unfold start, refused, greeted in *.
  unfold mbind at 1, M_bind at 1. unfold log at 1, tell at 1, modify at 1.
  unfold mbind at 1, M_bind at 1. rewrite pid_eq.
  change (pid_value self (emit (Log INFO "Starting") w)) with (pid_value self w).
  unfold mbind at 1, M_bind at 1.
  destruct (pid_value self w) as [p|]; cbn [Py.truthy] in *; [|reflexivity].
  destruct (p =? 0); cbn in *; [reflexivity|].
  rewrite Href. reflexivity.
Qed.

Lemma write_pidfile_ok w :
  pidfile_fault E (pidfile self) = WriteOk ->
  write_pidfile E self w
  = (Ret tt,
     emit (Chmod (pidfile self) 420)
       (emit (WriteFile (pidfile self) (Py.str_of_int (getpid E)))
          (set_fs (<[pidfile self := Py.str_of_int (getpid E)]>
                     (<[pidfile self := ""]> (fs w)))
             (emit (AtexitDelpid (pidfile self)) w)))).
Proof.
  intros Hok. unfold write_pidfile, open_truncate, write_close, os_chmod.
  rewrite Hok. reflexivity.
Qed.

End Starting.

Section StartTheorems.
Import Os Daemon.

(** A stale PID file is tolerated and replaced.  In the foreground, when
    the PID file does not name a running agent (no PID, or a PID for which
    [is_my_process] is false) and the file can be written, [start] does not
    fork: it writes the PID of the current process over whatever the file
    held, and only then calls [run]. *)
Theorem start_replaces_stale_pidfile (E : env) (self : daemon) (w : world) :
  refused E self w = false ->
  pidfile_fault E (pidfile self) = WriteOk ->
  exists w1,
    start E self true w = run self w1 /\
    pid self w1 = (Ret (Some (getpid E)), w1) /\
    events w1
    = (events (greeted self w)
       ++ [AtexitDelpid (pidfile self);
           WriteFile (pidfile self) (Py.str_of_int (getpid E));
           Chmod (pidfile self) 420])%list.
Proof.
  intros Href Hok. rewrite (start_eq E self true w Href). cbn [negb].
  unfold mbind at 1, M_bind at 1. unfold mret at 1, M_ret at 1.
  unfold mbind at 1, M_bind at 1. rewrite (write_pidfile_ok E self _ Hok).
  eexists. split; [reflexivity|]. split.
  - erewrite pid_present by (cbn; apply lookup_insert_eq).
    now rewrite PyFacts.strip_str_of_int, PyFacts.int_of_str_of_int.
  - cbn. now rewrite <- !app_assoc.
Qed.

(** The PID file names process 78, which is gone. *)
Lemma start_replaces_stale_pidfile_witness :
  exists w1,
    start Sample.E (Sample.agent false) true (Sample.with_pidfile "78")
    = run (Sample.agent false) w1 /\
    pid (Sample.agent false) w1 = (Ret (Some 4242), w1) /\
    events w1
    = (events (greeted (Sample.agent false) (Sample.with_pidfile "78"))
       ++ [AtexitDelpid "/var/run/agent.pid";
           WriteFile "/var/run/agent.pid" "4242";
           Chmod "/var/run/agent.pid" 420])%list.
Proof.
  exact (start_replaces_stale_pidfile Sample.E (Sample.agent false)
           (Sample.with_pidfile "78") eq_refl eq_refl).
Defined.



(** The process that launches the daemon leaves the PID file alone.  Out of
    the foreground, when [start] is not refused and the first fork returns
    the id of a child, this process exits with status 0 right after the
    fork: it has written no PID file, registered no clean-up, and [run] is
    not called in it. *)
Theorem start_launcher_exits (E : env) (self : daemon) (w : world) (child : Z) :
  refused E self w = false ->
  fork E 1 = inr child ->
  0 < child ->
  start E self false w = (Exit 0, emit ForkCall (greeted self w)).
Proof.
  intros Href Hfork Hchild. rewrite (start_eq E self false w Href). cbn [negb].
  unfold daemonize, os_fork. rewrite Hfork. unfold_M. cbn.
  apply Z.ltb_lt in Hchild. rewrite Hchild. reflexivity.
Qed.

(** Launching the agent of the sample machine over a stale PID file. *)
Lemma start_launcher_exits_witness :
  start Cases.launcher (Sample.agent false) false (Sample.with_pidfile "78")
  = (Exit 0,
     emit ForkCall (greeted (Sample.agent false) (Sample.with_pidfile "78"))).
Proof.
  refine (start_launcher_exits Cases.launcher (Sample.agent false)
            (Sample.with_pidfile "78") 4243 _ _ _).
  - reflexivity.
  - reflexivity.
  - lia.
Defined.

End StartTheorems.

(* ===================================================================== *)
(** * More on [Daemon.stop] and [Daemon.status] *)
(* ===================================================================== *)

Section Signals.
Import Os Daemon.

Lemma signals_sent_app a b :
  signals_sent (a ++ b) = (signals_sent a ++ signals_sent b)%list.
Proof. apply flat_map_app. Qed.

Lemma signals_sent_emit e w :
  signals_sent (events (emit e w))
  = (signals_sent (events w) ++ signals_sent [e])%list.
Proof. apply signals_sent_app. Qed.

Lemma signals_sent_cleared self w :
  signals_sent (events (cleared self w)) = signals_sent (events w).
Proof.
  unfold cleared. destruct (fs w !! pidfile self); cbn;
    rewrite !signals_sent_app; cbn; now rewrite !app_nil_r.
Qed.

(** The signals of the signalling step. *)
Lemma signal_daemon_signals E self p w :
  signals_sent (events (signal_daemon E self p w).2)
  = (signals_sent (events w) ++ stop_signals E self p)%list.
Proof.
  unfold signal_daemon, stop_signals, os_kill, os_getpgid. unfold_M.
  destruct (autorestart self); cbn.
  - destruct (getpgid E p) as [e|g]; cbn; [now rewrite app_nil_r|].
    destruct (kill E g SIGTERM) as [e|]; cbn;
      [destruct (kill E p SIGTERM) as [e'|]; cbn|];
      rewrite !signals_sent_app; cbn; rewrite ?app_nil_r, <- ?app_assoc;
      reflexivity.
  - destruct (kill E p SIGTERM) as [e|]; cbn;
      rewrite !signals_sent_app; cbn; rewrite ?app_nil_r; reflexivity.
Qed.


Lemma stop_signals_of_pid E self w p :
  pid_value self w = Some p ->
  1 < p ->
  exists w',
    stop E self w = (Ret tt, w') /\
    fs w' !! pidfile self = None /\
    signals_sent (events w')
    = (signals_sent (events w) ++ stop_signals E self p)%list.
Proof.
  intros Hpid Hp.
  rewrite stop_eq, Hpid. cbn [Py.gt].
  replace (1 <? p) with true by (symmetry; apply Z.ltb_lt; lia).
  pose proof (signal_daemon_signals E self p (cleared self w)) as Hsig.
  rewrite signals_sent_cleared in Hsig.
  pose proof (cleared_no_pidfile self w) as Hgone.
  destruct (signal_daemon_frame E self p (cleared self w))
    as (w' & rest & [H | [e H]] & Hfs & _);
    unfold try_OSError; rewrite H in *; cbn [snd] in Hsig;
    rewrite <- Hfs in Hgone.
  - exists w'. split; [reflexivity|]. split; [exact Hgone | exact Hsig].
  - rewrite kill_failed_eq.
    destruct (Py.find (strerror e) "No such process" =? -1);
      eexists; (split; [reflexivity|]); (split; [exact Hgone|]);
      cbn; rewrite ?signals_sent_app; cbn; rewrite ?app_nil_r; exact Hsig.
Qed.



(** [stop] undoes [write_pidfile]: after a PID file written by a process
    whose id is above 1, [stop] signals that process (as [stop_signals]
    says) and leaves no PID file. *)
Theorem stop_after_write_pidfile (E : env) (self : daemon) (w : world) :
  pidfile_fault E (pidfile self) = WriteOk ->
  1 < getpid E ->
  exists w1 w2,
    write_pidfile E self w = (Ret tt, w1) /\
    stop E self w1 = (Ret tt, w2) /\
    signals_sent (events w2)
    = (signals_sent (events w) ++ stop_signals E self (getpid E))%list /\
    fs w2 !! pidfile self = None.
Proof.
  intros Hok Hpid.
  rewrite (write_pidfile_ok E self w Hok).
  eexists.
  match goal with |- exists w2, (_, ?w1) = _ /\ _ =>
    assert (Hread : pid_value self w1 = Some (getpid E));
    [ unfold pid_value; cbn; rewrite lookup_insert_eq;
      now rewrite PyFacts.strip_str_of_int, PyFacts.int_of_str_of_int
    | destruct (stop_signals_of_pid E self w1 (getpid E) Hread Hpid)
        as (w2 & Hstop & Hgone & Hsent) ]
  end.
  exists w2. split; [reflexivity|]. split; [exact Hstop|].
  split; [|exact Hgone].
  rewrite Hsent. f_equal. cbn.
  rewrite !signals_sent_app. cbn. now rewrite !app_nil_r.
Qed.

(** The agent of the sample machine writes its PID file as process 4242. *)
Lemma stop_after_write_pidfile_witness :
  exists w1 w2,
    write_pidfile Sample.E (Sample.agent false) Sample.empty = (Ret tt, w1) /\
    stop Sample.E (Sample.agent false) w1 = (Ret tt, w2) /\
    signals_sent (events w2) = [(4242, SIGTERM)] /\
    fs w2 !! "/var/run/agent.pid" = None.
Proof.
  refine (stop_after_write_pidfile Sample.E (Sample.agent false) Sample.empty
            eq_refl _).
  reflexivity.
Defined.

End Signals.

Section StatusCode.
Import Os Daemon.


End StatusCode.

(* ===================================================================== *)
(** * More on [AgentSupervisor.start] *)
(* ===================================================================== *)

Section Supervisor.
Import Os AgentSupervisor.
Context (E : env) (parent_func child_func : option (M unit)).

Abbreviation step' := (AgentSupervisor.step E parent_func child_func).
Abbreviation run' := (AgentSupervisor.run E parent_func child_func).

Lemma run_app a b s : run' (a ++ b) s = run' b (run' a s).
Proof. apply fold_left_app. Qed.

Lemma fork_failed_eq e w :
  try_OSError (raise (EOSError e)) fork_failed w
  = (Exit 1, complained (agent_fork_failed_text e) w).
Proof. reflexivity. Qed.

Lemma handler_untracked w :
  child_pid w = None -> _handle_sigterm E w = (Exit 0, w).
Proof. intros H. unfold _handle_sigterm. unfold_M. now rewrite H. Qed.

Lemma leave_untracked {A} (r : outcome A * world) next :
  (forall w, untracked (next, w)) -> untracked (leave r next).
Proof. intros H. destruct r as [[a|c|x|] w]; [apply H | exact I ..]. Qed.

(** The handler leaves [child_pid] as it is. *)
Lemma handler_child_pid w o w' :
  _handle_sigterm E w = (o, w') -> child_pid w' = child_pid w.
Proof.
  unfold _handle_sigterm, os_kill. unfold_M.
  destruct (child_pid w) eqn:Hc; cbn; [|now intros [= _ <-]].
  destruct (kill E _ SIGTERM); cbn; intros [= _ <-]; exact Hc.
Qed.

Lemma step_untracked i s : untracked s -> untracked (step' i s).
Proof.
  destruct s as [p w]. intros H.
  destruct i as [ | [e|pid'] | [e|[cpid status]] | ].
  - (* Tick *)
    destruct p; cbn in *; auto.
    + destruct (0 <? pid) eqn:Hpid; cbn.
      * now apply Z.ltb_lt in Hpid.
      * apply Z.ltb_ge in Hpid. destruct child_func; cbn; auto.
    + destruct (need_stop w); cbn; auto.
    + unfold in_try. apply leave_untracked. cbn. auto.
    + destruct (need_stop w); cbn; [intros; exfalso; lia | exact I].
    + destruct child_func; cbn; [|auto].
      unfold in_try. apply leave_untracked. cbn. auto.
    + destruct (0 <? pid) eqn:Hpid; cbn; [exact I|].
      apply Z.ltb_ge in Hpid. apply H. lia.
  - destruct p; cbn in *; auto; exact I.
  - destruct p; cbn in *; auto.
  - destruct p; cbn in *; auto; exact I.
  - destruct p; cbn in *; auto.
    destruct (negb _); cbn; auto.
  - (* Sigterm *)
    destruct p; cbn -[_handle_sigterm] in *; auto;
      try (unfold in_try; apply leave_untracked; cbn; now auto);
      try (unfold in_try, try_OSError;
           rewrite (handler_untracked w H); exact I).
    unfold bare.
    destruct (_handle_sigterm E w) as [[[]|c|x|] w'] eqn:Hh; cbn; auto.
    intros Hpid. rewrite (handler_child_pid _ _ _ Hh). auto.
Qed.

Lemma run_untracked inputs s : untracked s -> untracked (run' inputs s).
Proof.
  revert s. induction inputs as [|i rest IH]; intros s H; [exact H|].
  cbn. now apply IH, step_untracked.
Qed.

(** While the child is running and no stop is requested, the parent only
    polls: after any number of rounds it is where it was, nothing has been
    logged, signalled or forked, and [parent_func] has not been called. *)
Theorem supervisor_keeps_polling (n : nat) (pid : Z) (w : world) :
  need_stop w = false ->
  run' (polls n) (AtWaitpid pid, w) = (AtWaitpid pid, w).
Proof.
  intros Hstop. induction n as [|n IH]; [reflexivity|].
  cbn [polls]. cbn -[polls]. rewrite Hstop. exact IH.
Qed.

(** Whenever [start] comes back to its caller, no child is tracked: the
    process is a child of the supervisor, and the handler that [start]
    installed makes it exit with status 0 on SIGTERM without signalling
    anyone.  This holds for every sequence of forks, polls, signals and
    callbacks. *)
Theorem supervisor_returns_untracked (inputs : list input) (w w' : world) :
  run' inputs (enter w) = (Returned, w') ->
  child_pid w' = None /\ _handle_sigterm E w' = (Exit 0, w').
Proof.
  intros Hrun.
  pose proof (run_untracked inputs (enter w) I) as Hinv.
  rewrite Hrun in Hinv. cbn in Hinv.
  split; [exact Hinv | now apply handler_untracked].
Qed.

(** SIGTERM reaching the parent while it sleeps between two polls, with
    the signal forwarded to the child: the poll ends at its next test,
    [parent_func] is called once, and the parent exits with status 0
    without waiting for the child and without forking again. *)
Theorem supervisor_stops_on_sigterm (pid c : Z) (w w2 : world) :
  0 < pid ->
  child_pid w = Some c ->
  kill E c SIGTERM = None ->
  call parent_func (set_need_stop true (emit (Kill c SIGTERM) w)) = (Ret tt, w2) ->
  need_stop w2 = true ->
  run' [Sigterm; Tick; Tick; Tick; Tick; Tick] (Sleeping pid, w) = (Exited 0, w2).
Proof.
  intros Hpid Hc Hk Hcall Hstop.
  assert (Hh : _handle_sigterm E w
               = (Ret tt, set_need_stop true (emit (Kill c SIGTERM) w))).
  { unfold _handle_sigterm, os_kill. unfold_M. rewrite Hc. cbn. now rewrite Hk. }
  apply Z.ltb_lt in Hpid.
  cbn -[_handle_sigterm call Z.ltb]. unfold in_try at 1, try_OSError at 1.
  rewrite Hh. cbn -[call Z.ltb].
  unfold in_try, try_OSError. rewrite Hcall. cbn -[Z.ltb]. rewrite Hstop.
  cbn -[Z.ltb]. now rewrite Hpid.
Qed.

(** Every [OSError] raised in the loop body is taken for a failed fork.
    When [os.waitpid] fails, and when SIGTERM arrives while a child is
    tracked and cannot be forwarded to it (the child is gone already), the
    process reports "Agent fork failed" with the error and exits with
    status 1, as it does when [os.fork] fails; [need_stop] is not set. *)
Theorem supervisor_oserror_is_fork_failure (p : pc) (pid c : Z) (w : world)
    (e : OSError) :
  in_loop p = true ->
  child_pid w = Some c ->
  kill E c SIGTERM = Some e ->
  step' Sigterm (p, w)
  = (Exited 1, complained (agent_fork_failed_text e) (emit (Kill c SIGTERM) w)) /\
  step' (WaitpidReturns (inl e)) (AtWaitpid pid, w)
  = (Exited 1, complained (agent_fork_failed_text e) w) /\
  step' (ForkReturns (inl e)) (AtFork, w)
  = (Exited 1, complained (agent_fork_failed_text e) w).
Proof.
  intros Hp Hc Hk. split; [|split; reflexivity].
  assert (Hh : try_OSError (_handle_sigterm E) fork_failed w
               = (Exit 1, complained (agent_fork_failed_text e)
                            (emit (Kill c SIGTERM) w))).
  { unfold _handle_sigterm, os_kill. unfold_M. rewrite Hc. cbn. now rewrite Hk. }
  destruct p; try discriminate Hp;
    cbn -[_handle_sigterm]; unfold in_try; now rewrite Hh.
Qed.

(** A [child_func] that returns does not end the child: the loop runs
    on in the child, which clears [child_pid] and forks in its turn, as a
    supervisor of its own. *)
Theorem supervisor_child_forks_again (f : M unit) (pid : Z) (w w' : world) :
  child_func = Some f ->
  pid <= 0 ->
  f w = (Ret tt, w') ->
  run' [Tick; Tick; Tick] (Forked pid, w)
  = (AtFork, emit ForkCall (set_child_pid None w')).
Proof.
  intros Hcf Hpid Hf.
  cbn -[Z.ltb]. rewrite Hcf.
  replace (0 <? pid) with false by (symmetry; apply Z.ltb_ge; lia).
  cbn. unfold in_try, try_OSError. now rewrite Hf.
Qed.

End Supervisor.

(** The supervisor of the sample machine, told to stop while child 77
    runs. *)
Lemma supervisor_stops_on_sigterm_witness :
  AgentSupervisor.run Sample.E None None
    [Os.Sigterm; Os.Tick; Os.Tick; Os.Tick; Os.Tick; Os.Tick]
    (AgentSupervisor.Sleeping 77, Os.set_child_pid (Some 77) Sample.empty)
  = (AgentSupervisor.Exited 0,
     Os.set_need_stop true
       (Os.emit (Os.Kill 77 Os.SIGTERM)
          (Os.set_child_pid (Some 77) Sample.empty))).
Proof.
  refine (supervisor_stops_on_sigterm Sample.E None None 77 77
            (Os.set_child_pid (Some 77) Sample.empty) _ _ _ _ _ _).
  - lia.
  - reflexivity.
  - reflexivity.
  - reflexivity.
  - reflexivity.
Defined.

(** A [child_func] that only logs and returns. *)
Lemma supervisor_child_forks_again_witness :
  AgentSupervisor.run Sample.E None (Some (Os.log Os.INFO "child done"))
    [Os.Tick; Os.Tick; Os.Tick] (AgentSupervisor.Forked 0, Sample.empty)
  = (AgentSupervisor.AtFork,
     Os.emit Os.ForkCall
       (Os.set_child_pid None
          (Os.emit (Os.Log Os.INFO "child done") Sample.empty))).
Proof.
  refine (supervisor_child_forks_again Sample.E None
            (Some (Os.log Os.INFO "child done")) _ 0 Sample.empty _ eq_refl _ eq_refl).
  lia.
Defined.

(** The supervisor of the sample machine keeps polling child 77. *)
Lemma supervisor_keeps_polling_witness :
  AgentSupervisor.run Sample.E None None (polls 3)
    (AgentSupervisor.AtWaitpid 77, Os.set_child_pid (Some 77) Sample.empty)
  = (AgentSupervisor.AtWaitpid 77, Os.set_child_pid (Some 77) Sample.empty).
Proof.
  exact (supervisor_keeps_polling Sample.E None None 3 77
           (Os.set_child_pid (Some 77) Sample.empty) eq_refl).
Defined.

(** In the child role of the sample machine, [start] returns. *)
Lemma supervisor_returns_untracked_witness :
  Os.child_pid
    (AgentSupervisor.run Sample.E None None (Os.script Sample.E)
       (AgentSupervisor.enter Sample.empty)).2 = None.
Proof.
  refine (proj1 (supervisor_returns_untracked Sample.E None None
                   (Os.script Sample.E) Sample.empty _ _)).
  reflexivity.
Defined.

(** The supervisor of the sample machine tracks child 78, which is gone,
    when SIGTERM arrives. *)
Lemma supervisor_oserror_is_fork_failure_witness :
  AgentSupervisor.step Sample.E None None Os.Sigterm
    (AgentSupervisor.StopTest 78, Os.set_child_pid (Some 78) Sample.empty)
  = (AgentSupervisor.Exited 1,
     complained "Agent fork failed: 3 (No such process)"
       (Os.emit (Os.Kill 78 Os.SIGTERM)
          (Os.set_child_pid (Some 78) Sample.empty))).
Proof.
  refine (proj1 (supervisor_oserror_is_fork_failure Sample.E None None
                   (AgentSupervisor.StopTest 78) 78 78
                   (Os.set_child_pid (Some 78) Sample.empty)
                   Os.no_such_process _ _ _)); reflexivity.
Defined.

(* ===================================================================== *)
(** * [Daemon.daemonize] *)
(* ===================================================================== *)

Section Daemonize.
Import Os Daemon.



(** With [autorestart], [daemonize] hands over to the supervisor instead
    of forking a second time, and comes back only in a child of the
    supervisor: wherever it returns, no child is tracked, so that SIGTERM
    ends this process, the worker, with status 0; and the last thing it did
    was to log "Daemon started". *)
Theorem daemonize_supervised (E : env) (self : daemon) (w w' : world) :
  autorestart self = true ->
  daemonize E self w = (Ret tt, w') ->
  child_pid w' = None /\
  AgentSupervisor._handle_sigterm E w' = (Exit 0, w') /\
  last (events w') = Some (Log INFO "Daemon started").
Proof.
  intros Hauto. unfold daemonize, os_fork. rewrite Hauto. unfold_M.
  destruct (fork E 1) as [e1|p1]; cbn; [discriminate|].
  destruct (0 <? p1); cbn; [discriminate|].
  unfold AgentSupervisor.start.
  match goal with |- context [AgentSupervisor.run ?e ?a ?b ?i ?s] =>
    pose proof (run_untracked e a b i s I) as Hinv;
    destruct (AgentSupervisor.run e a b i s) as [p w1]
  end.
  destruct p; cbn; try discriminate.
  cbn in Hinv.
  assert (Hend : forall w2,
    child_pid w2 = None ->
    last (events w2) = Some (Log INFO "Daemon started") ->
    child_pid w2 = None /\
    AgentSupervisor._handle_sigterm E w2 = (Exit 0, w2) /\
    last (events w2) = Some (Log INFO "Daemon started")).
  { intros w2 Hc Hl. split; [exact Hc|]. split; [|exact Hl].
    now apply handler_untracked. }
  destruct (String.eqb (platform E) "darwin"); cbn;
    intros [= <-]; apply Hend; cbn; try exact Hinv; apply last_snoc.
Qed.

(** The supervised agent of the sample machine, followed into the child. *)
Lemma daemonize_supervised_witness :
  child_pid (daemonize Sample.E (Sample.agent true) Sample.empty).2 = None.
Proof.
  refine (proj1 (daemonize_supervised Sample.E (Sample.agent true)
                   Sample.empty _ eq_refl _)).
  reflexivity.
Defined.

End Daemonize.

(* ===================================================================== *)
(** * More on [ProcessRunner.execute] *)
(* ===================================================================== *)

Section ExecuteMore.
Import Os ProcessRunner.

(** A child that inherited the streams writes on them itself. *)
Lemma child_writes_inherited ws files w :
  child_writes false ws files w
  = (Ret files,
     mkWorld (fs w) (events w ++ shown ws) (child_pid w) (need_stop w)).
Proof.
  revert w. induction ws as [|[t chunk] rest IH]; intros w.
  - cbn. rewrite app_nil_r. now destruct w.
  - cbn [child_writes]. unfold mbind, M_bind, tell, modify.
    rewrite IH. cbn. now rewrite <- app_assoc.
Qed.

(** Without redirection nothing is captured and nothing is copied: the
    output of the child appears on the streams of the parent as the child
    writes it, the two streams interleaved in the order of the writes, and
    [execute] adds nothing to it.  The value returned is the return code of
    the child, and the runner is left marked as not running. *)
Theorem execute_inherited (E : env) (self : runner) (args : list string)
    (environ : option (list (string * string))) (c : child) (w : world) :
  spawn E args false environ = inr c ->
  exists self' w',
    execute E self args false environ w
    = (Ret (Some (returncode c), self'), w') /\
    status self' = 1 /\
    events w'
    = (events w
       ++ [Popen args false;
           if signals_registrable E then RegisterHandlers
           else Log EXCEPTION "Unable to register signal handlers."]
       ++ shown (writes c))%list.
Proof.
  intros Hspawn.
  unfold execute, popen, register_signal_handlers. rewrite Hspawn.
  unfold try_Exception.
  unfold mbind at 1, M_bind at 1.
  unfold mbind at 1, M_bind at 1. unfold tell at 1, modify at 1.
  unfold mret at 1, M_ret at 1.
  unfold mbind at 1, M_bind at 1.
  assert (Hreg : forall w0,
    (if signals_registrable E then tell RegisterHandlers
     else log EXCEPTION "Unable to register signal handlers.") w0
    = (Ret tt, emit (if signals_registrable E then RegisterHandlers
                     else Log EXCEPTION "Unable to register signal handlers.") w0)).
  { intros w0. destruct (signals_registrable E); reflexivity. }
  rewrite Hreg.
  unfold mbind at 1, M_bind at 1. cbn [run_of].
  rewrite child_writes_inherited.
  eexists. eexists. split; [reflexivity|]. split; [reflexivity|].
  cbn. now rewrite <- !app_assoc.
Qed.

(** The child of the sample machine, its streams inherited. *)
Lemma execute_inherited_witness :
  exists self' w',
    execute Sample.E init ["agent"] false None Sample.empty
    = (Ret (Some 3, self'), w') /\
    status self' = 1 /\
    events w'
    = [Popen ["agent"] false; RegisterHandlers; Stdout "A"; Stderr "B"].
Proof.
  exact (execute_inherited Sample.E init ["agent"] None
           (mkChild [(false, "A"); (true, "B")] 3) Sample.empty eq_refl).
Defined.

(** A command that cannot be launched: [execute] logs "Could not launch
    process" and raises the exception of [Popen] again.  Nothing is
    written to the standard streams and no signal handler is registered,
    with or without redirection. *)
Theorem execute_launch_failure (E : env) (self : runner) (args : list string)
    (redirect : bool) (environ : option (list (string * string)))
    (x : exn) (w : world) :
  spawn E args redirect environ = inl x ->
  execute E self args redirect environ w
  = (Raise x,
     emit (Log EXCEPTION "Could not launch process")
       (emit (Popen args redirect) w)).
Proof.
  intros Hspawn. unfold execute, popen. rewrite Hspawn. reflexivity.
Qed.

(** No command can be launched on this machine. *)
Lemma execute_launch_failure_witness :
  execute Cases.no_spawn init ["agent"] true None Sample.empty
  = (Raise (EOSError no_such_file),
     emit (Log EXCEPTION "Could not launch process")
       (emit (Popen ["agent"] true) Sample.empty)).
Proof.
  exact (execute_launch_failure Cases.no_spawn init ["agent"] true None
           (EOSError no_such_file) Sample.empty eq_refl).
Defined.

End ExecuteMore.
